(** * Avatar cache of the committers page: batch reconciler and client refresher

    A shallow embedding of
    - [scripts/download-avatars.js], the batch job started by
      [scripts/cron-download-avatars.sh] (module [DownloadAvatars]);
    - the browser-side avatar service with its [localStorage] metadata
      (module [AvatarService]);
    - the storage-free variant of the avatar service (module
      [AvatarServicePlain]).
    Also embedded is the log handling of the cron script (module [Cron]).

    Conventions of the embedding.
    - Timestamps are the integers returned by [Date.now()], in [Z].
    - A JavaScript object used as a dictionary ([metadata.avatars]) is a
      [gmap string _].  This is exact for keys that are GitHub user names
      (letters, digits and hyphens); the inherited properties of
      [Object.prototype] carry no [lastUpdated] field and so behave like
      missing entries in every test the code performs.
    - [Date.now()] is an oracle [clock : nat → Z] read through a position
      kept in the state: the n-th call of a run returns [clock n].
    - Persisted metadata is kept parsed: a metadata file or storage item
      is missing, unparsable, or holds a record of the shape the code
      itself writes; [lastUpdated] is a number or missing.  A file or
      item that parses to another value (no [avatars] object) is outside
      the embedding.
    - [localStorage.setItem] may throw (quota, private browsing): the
      environment says for which values it does. *)

From stdpp Require Import gmap strings list fin_maps pretty.

(** ** A state monad for the effectful code *)

Definition M (S A : Type) : Type := S → A * S.

Global Instance M_ret {S} : MRet (M S) := λ A a s, (a, s).
Global Instance M_bind {S} : MBind (M S) :=
  λ A B f m s, let (a, s') := m s in f a s'.

Definition get {S} : M S S := λ s, (s, s).
Definition modify {S} (f : S → S) : M S unit := λ s, (tt, f s).

(** ** Values shared by both metadata stores *)

(** [{ lastUpdated, path }], the record kept per GitHub id. *)
Record AvatarMeta := {
  lastUpdated : option Z;
  path : string
}.

(** JavaScript truthiness of a possibly missing number: [undefined] and
    [0] are falsy. *)
Definition truthy (v : option Z) : bool :=
  match v with
  | Some n => negb (n =? 0)%Z
  | None => false
  end.

(** [`${n}`] for an integer [n] in the range of safe integers, where a
    number prints all its digits (every value of [Date.now()] is in that
    range). *)
Definition js_string_of (n : Z) : string := pretty n.

(** * scripts/download-avatars.js *)
Module DownloadAvatars.

(** [CONFIG]; [forceDownload] is [process.argv.includes('--force')]. *)
Record Config := {
  maxAgeMs : Z;
  avatarSize : Z;
  forceDownload : bool
}.

Definition CONFIG (force : bool) : Config := {|
  maxAgeMs := 7 * 24 * 60 * 60 * 1000;
  avatarSize := 128;
  forceDownload := force
|}.

(** [{ lastRun, avatars }] *)
Record Metadata := {
  lastRun : Z;
  avatars : gmap string AvatarMeta
}.

(** The metadata file on disk, as [JSON.parse] sees it. *)
Inductive MetadataFile :=
  | Missing
  | Unparsable
  | Parsed (m : Metadata).

(** What one [https.get] yields. *)
Inductive NetEvent :=
  | Response (statusCode : Z) (location : option string) (body : string)
  | SocketError
  | SocketTimeout.

(** One launched download: the arguments of [downloadFile] and the id
    its handlers close over. *)
Record Task := {
  task_id : string;
  task_url : string;
  task_path : string
}.

(** The world outside the process. [completion_order] is the order in
    which the event loop runs the handlers of the launched downloads. *)
Record Env := {
  avatarsDir : string;
  clock : nat → Z;
  https_get : string → NetEvent;
  stream_error : string → bool;
  completion_order : list Task → list Task
}.

(** The process and the disk it works on. *)
Record State := {
  files : gmap string string;
  metadataFile : MetadataFile;
  metadata : Metadata;
  ticks : nat
}.

Definition set_files (f : gmap string string) (s : State) : State :=
  {| files := f; metadataFile := metadataFile s;
     metadata := metadata s; ticks := ticks s |}.


Definition set_metadata (m : Metadata) (s : State) : State :=
  {| files := files s; metadataFile := metadataFile s;
     metadata := m; ticks := ticks s |}.

Definition set_ticks (n : nat) (s : State) : State :=
  {| files := files s; metadataFile := metadataFile s;
     metadata := metadata s; ticks := n |}.

(** [Date.now()] *)
Definition Date_now (env : Env) : M State Z :=
  λ s, (clock env (ticks s), set_ticks (S (ticks s)) s).

(** [fs.existsSync(filePath)] *)
Definition existsSync (filePath : string) : M State bool :=
  s ← get; mret (bool_decide (is_Some (files s !! filePath))).

(** [path.join(avatarsDir, `${githubId}.png`)], for an id without path
    separators. *)
Definition outputPath_of (env : Env) (githubId : string) : string :=
  avatarsDir env +:+ "/" +:+ githubId +:+ ".png".

(** [`https://github.com/${githubId}.png?size=${CONFIG.avatarSize}`] *)
Definition avatarUrl_of (cfg : Config) (githubId : string) : string :=
  "https://github.com/" +:+ githubId +:+ ".png?size="
    +:+ js_string_of (avatarSize cfg).

(** [function shouldDownloadAvatar(githubId, filePath)] *)
Definition shouldDownloadAvatar (cfg : Config) (env : Env)
    (githubId filePath : string) : M State bool :=
  if forceDownload cfg then mret true
  else
    present ← existsSync filePath;
    if negb present then mret true
    else
      s ← get;
      match avatars (metadata s) !! githubId with
      | None => mret true
      | Some avatarMeta =>
          if negb (truthy (lastUpdated avatarMeta)) then mret true
          else
            now ← Date_now env;
            let ageMs := (now - default 0 (lastUpdated avatarMeta))%Z in
            mret (maxAgeMs cfg <? ageMs)%Z
      end.

(** The ways the promise of [downloadFile] is rejected. *)
Inductive Error :=
  | RedirectError (url : string)
  | HttpError (url : string) (statusCode : Z)
  | TimeoutError (url : string)
  | NetworkError
  | StorageError.

Inductive Outcome :=
  | Resolved
  | Rejected (err : Error).

(** [response.headers.location] as a condition: a missing header and an
    empty one are both falsy. *)
Definition location_target (location : option string) : option string :=
  match location with
  | Some "" => None
  | Some target => Some target
  | None => None
  end.

(** [function downloadFile(url, outputPath)]. The recursion on redirects
    is unbounded in the source; [fuel] bounds the number of requests and
    [None] stands for a chain that has not ended within it.
    [SocketError] and [SocketTimeout] are the socket error and the
    10-second timeout that come before a response. A response that has
    started arrives whole, and a chain of redirects ends before the
    timer of its first request fires: the timeout that fires while a
    body is piped, or while a redirect is followed, is outside this
    embedding. *)
Fixpoint downloadFile (fuel : nat) (env : Env) (url outputPath : string)
    : M State (option Outcome) :=
  match fuel with
  | O => mret None
  | S fuel' =>
      match https_get env url with
      | Response statusCode location body =>
          if (statusCode =? 301)%Z || (statusCode =? 302)%Z then
            match location_target location with
            | Some target => downloadFile fuel' env target outputPath
            | None => mret (Some (Rejected (RedirectError url)))
            end
          else if negb (statusCode =? 200)%Z then
            mret (Some (Rejected (HttpError url statusCode)))
          else if stream_error env outputPath then
            modify (λ s, set_files (delete outputPath (files s)) s);;
            mret (Some (Rejected StorageError))
          else
            modify (λ s, set_files (<[outputPath := body]> (files s)) s);;
            mret (Some Resolved)
      | SocketError => mret (Some (Rejected NetworkError))
      | SocketTimeout => mret (Some (Rejected (TimeoutError url)))
      end
  end.

(** The counters local to [downloadAvatars]. *)
Record Counters := {
  completed : nat;
  downloaded : nat;
  skipped : nat;
  failed : nat
}.

Definition no_counts : Counters :=
  {| completed := 0; downloaded := 0; skipped := 0; failed := 0 |}.

Definition count_skipped (c : Counters) : Counters :=
  {| completed := S (completed c); downloaded := downloaded c;
     skipped := S (skipped c); failed := failed c |}.

Definition count_downloaded (c : Counters) : Counters :=
  {| completed := S (completed c); downloaded := S (downloaded c);
     skipped := skipped c; failed := failed c |}.

Definition count_failed (c : Counters) : Counters :=
  {| completed := S (completed c); downloaded := downloaded c;
     skipped := skipped c; failed := S (failed c) |}.

(** The body of [githubIds.forEach]: it runs to its end before any
    handler of a download does, so it sees the files and the metadata of
    the start of the run. A skipped id is counted at once, any other id
    launches a download whose promise is pushed. *)
Fixpoint forEach_githubId (cfg : Config) (env : Env) (githubIds : list string)
    (c : Counters) (promises : list Task) : M State (Counters * list Task) :=
  match githubIds with
  | [] => mret (c, promises)
  | githubId :: rest =>
      let avatarUrl := avatarUrl_of cfg githubId in
      let outputPath := outputPath_of env githubId in
      should ← shouldDownloadAvatar cfg env githubId outputPath;
      if negb should then
        forEach_githubId cfg env rest (count_skipped c) promises
      else
        forEach_githubId cfg env rest c
          (promises ++ [{| task_id := githubId; task_url := avatarUrl;
                           task_path := outputPath |}])
  end.

(** [metadata.avatars[githubId] = { lastUpdated: Date.now(), path }] *)
Definition record_avatar (githubId : string) (now : Z) (outputPath : string)
    (m : Metadata) : Metadata :=
  {| lastRun := lastRun m;
     avatars := <[githubId := {| lastUpdated := Some now;
                                 path := outputPath |}]> (avatars m) |}.

(** The [.then] handler of one download. *)
Definition on_resolved (env : Env) (t : Task) (c : Counters)
    : M State Counters :=
  now ← Date_now env;
  modify (λ s, set_metadata
                 (record_avatar (task_id t) now (task_path t) (metadata s)) s);;
  mret (count_downloaded c).

(** The downloads settle one at a time, each followed by its handler. *)
Fixpoint settle (fuel : nat) (env : Env) (sched : list Task) (c : Counters)
    : M State (option Counters) :=
  match sched with
  | [] => mret (Some c)
  | t :: rest =>
      r ← downloadFile fuel env (task_url t) (task_path t);
      match r with
      | None => mret None
      | Some Resolved =>
          c' ← on_resolved env t c;
          settle fuel env rest c'
      | Some (Rejected _) => settle fuel env rest (count_failed c)
      end
  end.

(** The summary printed once [Promise.all] resolves. *)
Record Summary := {
  s_total : nat;
  s_downloaded : nat;
  s_skipped : nat;
  s_failed : nat
}.

Definition summary_of (githubIds : list string) (c : Counters) : Summary :=
  {| s_total := length githubIds; s_downloaded := downloaded c;
     s_skipped := skipped c; s_failed := failed c |}.

(** [function downloadAvatars(githubIds)] *)
Definition downloadAvatars (fuel : nat) (cfg : Config) (env : Env)
    (githubIds : list string) : M State (option Summary) :=
  '(c, promises) ← forEach_githubId cfg env githubIds no_counts [];
  r ← settle fuel env (completion_order env promises) c;
  mret (summary_of githubIds <$> r).

Definition empty_metadata : Metadata := {| lastRun := 0; avatars := ∅ |}.




(** ** Vocabulary of the statements about the batch job *)

(** [url] answers with a 301 or 302 whose [Location] is [target]. *)
Definition redirects_to (env : Env) (url target : string) : Prop :=
  ∃ statusCode location body,
    https_get env url = Response statusCode location body
    ∧ (statusCode = 301 ∨ statusCode = 302)%Z
    ∧ location_target location = Some target.


(** The download of [url] settles within [fuel] requests. *)
Definition fetch_settles (fuel : nat) (env : Env) (url outputPath : string)
    : Prop :=
  ∀ s, (downloadFile fuel env url outputPath s).1 ≠ None.

(** Every launched download gets its handler run exactly once. *)
Definition fair (env : Env) : Prop :=
  ∀ l, completion_order env l ≡ₚ l.

(** Two states with the same files and the same metadata. *)
Definition same_disk (s s' : State) : Prop :=
  files s' = files s ∧ metadata s' = metadata s
  ∧ metadataFile s' = metadataFile s.


(** The same world with another order of completion. *)
Definition with_order (env : Env) (order : list Task → list Task) : Env :=
  {| avatarsDir := avatarsDir env; clock := clock env;
     https_get := https_get env; stream_error := stream_error env;
     completion_order := order |}.

(** The download the loop launches for [githubId]. *)
Definition launch (cfg : Config) (env : Env) (githubId : string) : Task :=
  {| task_id := githubId; task_url := avatarUrl_of cfg githubId;
     task_path := outputPath_of env githubId |}.



End DownloadAvatars.

(** * The avatar service of the browser (with [localStorage] metadata) *)
Module AvatarService.

Definition CACHE_EXPIRATION : Z := 7 * 24 * 60 * 60 * 1000.
Definition DEFAULT_AVATAR : string := "/img/default-avatar.png".
Definition AVATAR_DIR : string := "/img/avatars".
Definition METADATA_KEY : string := "avatar_metadata".

(** [{ avatars, lastCheck }] *)
Record Metadata := {
  avatars : gmap string AvatarMeta;
  lastCheck : Z
}.

Definition empty_metadata : Metadata := {| avatars := ∅; lastCheck := 0 |}.

(** [localStorage.getItem(METADATA_KEY)], as [JSON.parse] sees it. *)
Inductive StorageItem :=
  | NoItem
  | Malformed
  | Item (m : Metadata).

(** How a [fetch] promise settles. *)
Inductive FetchResult :=
  | Fulfilled (status : Z) (blob : string)
  | Failed.

(** [response.ok] *)
Definition ok (status : Z) : bool := (200 <=? status)%Z && (status <=? 299)%Z.

(** What the service does to the outside, in the order it does it. *)
Inductive Effect :=
  | SetItem (m : Metadata)
  | Fetch (url : string)
  | PostSaveAvatar (githubId : string) (blob : string)
  | SetTimeout (delay : Z).

(** The page context: [window] tells whether [typeof window] is defined;
    [save_avatar] is the answer of [/api/save-avatar] for an id;
    [setItem_throws] tells for which values [localStorage.setItem]
    throws (a full or disabled store). *)
Record Env := {
  window : bool;
  clock : nat → Z;
  remote : string → FetchResult;
  save_avatar : string → FetchResult;
  setItem_throws : Metadata → bool
}.

(** The module variable [updatesChecked], the stored item, the rosters
    of the callbacks waiting in [setTimeout], and the effects so far. *)
Record State := {
  updatesChecked : bool;
  localStorage : StorageItem;
  timers : list (list string);
  trace : list Effect;
  ticks : nat
}.

Definition initial (item : StorageItem) : State :=
  {| updatesChecked := false; localStorage := item; timers := [];
     trace := []; ticks := 0 |}.

Definition set_updatesChecked (b : bool) (s : State) : State :=
  {| updatesChecked := b; localStorage := localStorage s;
     timers := timers s; trace := trace s; ticks := ticks s |}.

Definition set_localStorage (i : StorageItem) (s : State) : State :=
  {| updatesChecked := updatesChecked s; localStorage := i;
     timers := timers s; trace := trace s; ticks := ticks s |}.

Definition set_timers (t : list (list string)) (s : State) : State :=
  {| updatesChecked := updatesChecked s; localStorage := localStorage s;
     timers := t; trace := trace s; ticks := ticks s |}.

Definition set_ticks (n : nat) (s : State) : State :=
  {| updatesChecked := updatesChecked s; localStorage := localStorage s;
     timers := timers s; trace := trace s; ticks := n |}.

Definition emit (e : Effect) : M State unit :=
  modify (λ s, {| updatesChecked := updatesChecked s;
                  localStorage := localStorage s; timers := timers s;
                  trace := trace s ++ [e]; ticks := ticks s |}).

(** [Date.now()] *)
Definition Date_now (env : Env) : M State Z :=
  λ s, (clock env (ticks s), set_ticks (S (ticks s)) s).

(** [function getMetadata()] *)
Definition getMetadata (env : Env) : M State Metadata :=
  if negb (window env) then mret empty_metadata
  else
    s ← get;
    match localStorage s with
    | Item m => mret m
    | NoItem | Malformed => mret empty_metadata
    end.

(** [function saveMetadata(metadata)]: a [setItem] that throws is caught
    and logged, and nothing is stored. *)
Definition saveMetadata (env : Env) (metadata : Metadata) : M State unit :=
  if negb (window env) then mret tt
  else if setItem_throws env metadata then mret tt
  else
    modify (set_localStorage (Item metadata));;
    emit (SetItem metadata).

(** [export function getAvatarUrl(githubId)] *)
Definition getAvatarUrl (env : Env) (githubId : string) : M State string :=
  if window env then
    metadata ← getMetadata env;
    let known := avatars metadata !! githubId ≫= lastUpdated in
    timestamp ← (if truthy known then mret (default 0%Z known)
                 else Date_now env);
    mret (AVATAR_DIR +:+ "/" +:+ githubId +:+ ".png?t="
            +:+ js_string_of timestamp)
  else mret (AVATAR_DIR +:+ "/" +:+ githubId +:+ ".png").

(** [export function needsRefresh(githubId)] *)
Definition needsRefresh (env : Env) (githubId : string) : M State bool :=
  metadata ← getMetadata env;
  match avatars metadata !! githubId with
  | None => mret true
  | Some avatar =>
      if negb (truthy (lastUpdated avatar)) then mret true
      else
        now ← Date_now env;
        let age := (now - default 0 (lastUpdated avatar))%Z in
        mret (CACHE_EXPIRATION <? age)%Z
  end.

(** The URL [downloadAvatar] fetches. *)
Definition avatarUrl_of (githubId : string) (now : Z) : string :=
  "https://github.com/" +:+ githubId +:+ ".png?size=128&t="
    +:+ js_string_of now.

(** [async function downloadAvatar(githubId)]; every [throw] inside the
    [try] ends in the [catch] that returns [false]. *)
Definition downloadAvatar (env : Env) (githubId : string) : M State bool :=
  t ← Date_now env;
  let avatarUrl := avatarUrl_of githubId t in
  emit (Fetch avatarUrl);;
  match remote env avatarUrl with
  | Failed => mret false
  | Fulfilled status blob =>
      if negb (ok status) then mret false
      else
        emit (PostSaveAvatar githubId blob);;
        match save_avatar env githubId with
        | Failed => mret false
        | Fulfilled saveStatus _ =>
            if negb (ok saveStatus) then mret false
            else
              metadata ← getMetadata env;
              now ← Date_now env;
              saveMetadata env
                {| avatars :=
                     <[githubId := {| lastUpdated := Some now;
                                      path := AVATAR_DIR +:+ "/" +:+ githubId
                                                +:+ ".png" |}]>
                       (avatars metadata);
                   lastCheck := lastCheck metadata |};;
              mret true
        end
  end.

(** The [for ... of] loop of the deferred callback; the result is
    [updated]. *)
Fixpoint refresh_loop (env : Env) (githubIds : list string) (updated : nat)
    : M State nat :=
  match githubIds with
  | [] => mret updated
  | githubId :: rest =>
      stale ← needsRefresh env githubId;
      if (stale : bool) then
        success ← downloadAvatar env githubId;
        refresh_loop env rest (if (success : bool) then S updated else updated)
      else refresh_loop env rest updated
  end.

(** [setTimeout(callback, delay)] for the callback closed over
    [githubIds]. *)
Definition setTimeout (githubIds : list string) (delay : Z) : M State unit :=
  modify (λ s, set_timers (timers s ++ [githubIds]) s);;
  emit (SetTimeout delay).

Definition dayMs : Z := 24 * 60 * 60 * 1000.

(** [export async function checkAndUpdateAvatars(githubIds)] *)
Definition checkAndUpdateAvatars (env : Env) (githubIds : list string)
    : M State unit :=
  s ← get;
  if updatesChecked s || negb (window env) then mret tt
  else
    modify (set_updatesChecked true);;
    metadata ← getMetadata env;
    now ← Date_now env;
    if negb (lastCheck metadata =? 0)%Z
       && (now - lastCheck metadata <? dayMs)%Z
    then mret tt
    else
      saveMetadata env {| avatars := avatars metadata; lastCheck := now |};;
      setTimeout githubIds 2000.

(** The oldest waiting callback runs. *)
Definition timer_fires (env : Env) : M State unit :=
  s ← get;
  match timers s with
  | [] => mret tt
  | githubIds :: waiting =>
      modify (set_timers waiting);;
      refresh_loop env githubIds 0;;
      mret tt
  end.

(** What happens in a session: the page calls the refresher, renders an
    avatar, or the event loop runs a waiting callback. *)
Inductive Event :=
  | Call (githubIds : list string)
  | Render (githubId : string)
  | TimerFires.

Definition step (env : Env) (ev : Event) : M State unit :=
  match ev with
  | Call githubIds => checkAndUpdateAvatars env githubIds
  | Render githubId => getAvatarUrl env githubId;; mret tt
  | TimerFires => timer_fires env
  end.

Fixpoint run (env : Env) (evs : list Event) : M State unit :=
  match evs with
  | [] => mret tt
  | ev :: rest => step env ev;; run env rest
  end.

(** ** Vocabulary of the statements about a session *)

(** [s'] comes later than [s] in a session: the flag, once set, is
    still set, and effects have only been added. *)
Definition later (s s' : State) : Prop :=
  (updatesChecked s = true → updatesChecked s' = true)
  ∧ trace s `prefix_of` trace s'.

(** A computation that only moves a session forward. *)
Definition steady {A : Type} (m : M State A) : Prop :=
  ∀ s, later s (m s).2.

(** The stored last check is recorded (not 0) and less than a day
    before [now]. *)
Definition within_cooldown (metadata : Metadata) (now : Z) : Prop :=
  lastCheck metadata ≠ 0%Z ∧ (now - lastCheck metadata < dayMs)%Z.

(** [Number.MAX_SAFE_INTEGER]: up to it a number holds an integer
    exactly and prints it digit by digit. *)
Definition MAX_SAFE_INTEGER : Z := 9007199254740991.

Definition safe_integer (n : Z) : Prop := (Z.abs n ≤ MAX_SAFE_INTEGER)%Z.

(** The stored metadata records a last check at [t]. *)
Definition checked_at (t : Z) (s : State) : Prop :=
  ∃ m, localStorage s = Item m ∧ lastCheck m = t.

(** The store holds for the key an entry with a non-zero timestamp. *)
Definition recorded_in_store (s : State) (githubId : string) : Prop :=
  ∃ m avatar lu,
    localStorage s = Item m
    ∧ avatars m !! githubId = Some avatar
    ∧ lastUpdated avatar = Some lu
    ∧ lu ≠ 0%Z.

(** A request settles with an [ok] response. *)
Definition succeeds (r : FetchResult) : Prop :=
  ∃ status blob, r = Fulfilled status blob ∧ ok status = true.

(** A fresh load of the page over the storage [s] left: the module
    variable is reset, nothing waits, nothing has happened yet. *)
Definition page_load (s : State) : State :=
  {| updatesChecked := false; localStorage := localStorage s;
     timers := []; trace := []; ticks := 0 |}.

(** The entry [downloadAvatar] writes for a key. *)
Definition refreshed (githubId : string) (now : Z) (m : Metadata) : Metadata :=
  {| avatars := <[githubId := {| lastUpdated := Some now;
                                 path := AVATAR_DIR +:+ "/" +:+ githubId
                                           +:+ ".png" |}]> (avatars m);
     lastCheck := lastCheck m |}.

End AvatarService.

(** * The avatar service without client storage *)
Module AvatarServicePlain.

Definition AVATAR_DIR : string := "/img/avatars".

(** [export function getAvatarUrl(githubId)] *)
Definition getAvatarUrl (githubId : string) : string :=
  AVATAR_DIR +:+ "/" +:+ githubId +:+ ".png".

(** [export function needsRefresh(githubId)] *)
Definition needsRefresh (githubId : string) : bool := true.

End AvatarServicePlain.

(** * scripts/cron-download-avatars.sh *)
Module Cron.

(** The number of lines the log file may grow to. *)
Definition keep : Z := 10000.

(** The trimming at the end of the script, on the log file taken line by
    line: [tail -n 10000] when [wc -l] exceeds 10000. *)
Definition trim (log : list string) : list string :=
  if (keep <? Z.of_nat (length log))%Z
  then drop (Z.to_nat (Z.of_nat (length log) - keep)) log
  else log.

(** One run of the script: the two [date] outputs and the lines that the
    node script prints are given; the result is the log file and the
    exit status. *)
Definition cron_run (started completed : string) (node_output : list string)
    (log : list string) : list string * Z :=
  let log := log ++ ["===== Avatar Download Started: " +:+ started
                       +:+ " ====="] in
  let log := log ++ node_output in
  let log := log ++ ["===== Avatar Download Completed: " +:+ completed
                       +:+ " ====="] in
  let log := log ++ [""] in
  (trim log, 0%Z).

End Cron.

(** * Sample worlds, used to run the definitions on concrete inputs *)
Module Samples.

(** A browser whose clock stands at [now] and whose requests succeed. *)
Definition browser (now : Z) : AvatarService.Env :=
  {| AvatarService.window := true;
     AvatarService.clock := λ _, now;
     AvatarService.remote := λ _, AvatarService.Fulfilled 200 "png";
     AvatarService.save_avatar := λ _, AvatarService.Fulfilled 200 "";
     AvatarService.setItem_throws := λ _, false |}.

(** A server render: no [window]. *)
Definition server_render (now : Z) : AvatarService.Env :=
  {| AvatarService.window := false;
     AvatarService.clock := λ _, now;
     AvatarService.remote := λ _, AvatarService.Failed;
     AvatarService.save_avatar := λ _, AvatarService.Failed;
     AvatarService.setItem_throws := λ _, false |}.

(** A session whose storage holds one entry for alice. *)
Definition alice_stored (lu : option Z) (check : Z) : AvatarService.State :=
  AvatarService.initial
    (AvatarService.Item
       {| AvatarService.avatars :=
            {[ "alice" := {| lastUpdated := lu;
                             path := "/img/avatars/alice.png" |} ]};
          AvatarService.lastCheck := check |}).

(** A host whose clock stands at [now], where GitHub redirects alice's
    avatar once and serves every other URL directly. *)
Definition host (now : Z) : DownloadAvatars.Env :=
  {| DownloadAvatars.avatarsDir := "/site/static/img/avatars";
     DownloadAvatars.clock := λ _, now;
     DownloadAvatars.https_get := λ url,
       if decide (url = "https://github.com/alice.png?size=128")
       then DownloadAvatars.Response 302
              (Some "https://avatars.githubusercontent.com/u/1") ""
       else DownloadAvatars.Response 200 None "png";
     DownloadAvatars.stream_error := λ _, false;
     DownloadAvatars.completion_order := λ l, reverse l |}.

(** A host on which alice's avatar has moved to a URL that, like every
    other URL, answers a redirect that carries no [Location]. *)
Definition broken_host (now : Z) : DownloadAvatars.Env :=
  {| DownloadAvatars.avatarsDir := "/site/static/img/avatars";
     DownloadAvatars.clock := λ _, now;
     DownloadAvatars.https_get := λ url,
       if decide (url = "https://github.com/alice.png?size=128")
       then DownloadAvatars.Response 301 (Some "https://github.com/moved") ""
       else DownloadAvatars.Response 302 None "";
     DownloadAvatars.stream_error := λ _, false;
     DownloadAvatars.completion_order := λ l, l |}.

(** A disk with no avatar and no metadata file. *)
Definition empty_disk : DownloadAvatars.State :=
  {| DownloadAvatars.files := ∅;
     DownloadAvatars.metadataFile := DownloadAvatars.Missing;
     DownloadAvatars.metadata := DownloadAvatars.empty_metadata;
     DownloadAvatars.ticks := 0 |}.

(** A process that has loaded one entry for alice, with or without her
    file on disk. *)
Definition alice_on_disk (lu : option Z) (file : bool)
    : DownloadAvatars.State :=
  {| DownloadAvatars.files :=
       if file then {[ "/site/static/img/avatars/alice.png" := "png" ]}
       else ∅;
     DownloadAvatars.metadataFile := DownloadAvatars.Missing;
     DownloadAvatars.metadata :=
       {| DownloadAvatars.lastRun := 0;
          DownloadAvatars.avatars :=
            {[ "alice" := {| lastUpdated := lu;
                 path := "/site/static/img/avatars/alice.png" |} ]} |};
     DownloadAvatars.ticks := 0 |}.

(** A browser tab that stays open for days: each reading of the clock
    is 25 hours after the one before. *)
Definition long_session : AvatarService.Env :=
  {| AvatarService.window := true;
     AvatarService.clock := λ n, (1700000000000 + Z.of_nat n * 90000000)%Z;
     AvatarService.remote := λ _, AvatarService.Fulfilled 200 "png";
     AvatarService.save_avatar := λ _, AvatarService.Fulfilled 200 "";
     AvatarService.setItem_throws := λ _, false |}.

(** A browser whose requests succeed and whose clock advances by one
    millisecond at each reading. *)
Definition ticking_browser : AvatarService.Env :=
  {| AvatarService.window := true;
     AvatarService.clock := λ n, (1700000000000 + Z.of_nat n)%Z;
     AvatarService.remote := λ _, AvatarService.Fulfilled 200 "png";
     AvatarService.save_avatar := λ _, AvatarService.Fulfilled 200 "";
     AvatarService.setItem_throws := λ _, false |}.


(** A host that answers every request with a 200 and cannot write. *)
Definition full_disk_host (now : Z) : DownloadAvatars.Env :=
  {| DownloadAvatars.avatarsDir := "/site/static/img/avatars";
     DownloadAvatars.clock := λ _, now;
     DownloadAvatars.https_get := λ _, DownloadAvatars.Response 200 None "png";
     DownloadAvatars.stream_error := λ _, true;
     DownloadAvatars.completion_order := λ l, l |}.


(** A browser whose requests all fail and whose clock advances by one
    millisecond at each reading. *)
Definition offline_browser : AvatarService.Env :=
  {| AvatarService.window := true;
     AvatarService.clock := λ n, (1700000000000 + Z.of_nat n)%Z;
     AvatarService.remote := λ _, AvatarService.Failed;
     AvatarService.save_avatar := λ _, AvatarService.Failed;
     AvatarService.setItem_throws := λ _, false |}.

End Samples.

(** * Properties *)

(** Unfolding of the monad's plumbing. *)
Ltac run_M :=
unfold mbind, M_bind, mret, M_ret, get, modify in *; cbn in *.

(** ** Staleness policy *)
Section Staleness.
Import DownloadAvatars.

Lemma needsRefresh_by_age (env : AvatarService.Env) (s : AvatarService.State)
    (githubId : string) (m : AvatarService.Metadata) (avatar : AvatarMeta)
    (lu : Z) :
  AvatarService.window env = true →
  AvatarService.localStorage s = AvatarService.Item m →
  AvatarService.avatars m !! githubId = Some avatar →
  lastUpdated avatar = Some lu →
  (AvatarService.needsRefresh env githubId s).1 = true
  ↔ lu = 0%Z
    ∨ (AvatarService.clock env (AvatarService.ticks s) - lu
         > AvatarService.CACHE_EXPIRATION)%Z.
Proof.
  intros Hw Hs Ha Hlu.
  unfold AvatarService.needsRefresh, AvatarService.getMetadata,
    AvatarService.Date_now.
  rewrite Hw. run_M. rewrite Hs, Ha, Hlu. cbn.
  destruct (Z.eqb_spec lu 0) as [|Hnz]; cbn; [by split; auto|].
  rewrite Z.ltb_lt. split; [intros; right; lia|].
  intros [? | ?]; [done | lia].
Qed.

Lemma shouldDownloadAvatar_by_age (env : Env) (s : State)
    (githubId filePath : string) (avatar : AvatarMeta) (lu : Z) :
  is_Some (files s !! filePath) →
  avatars (metadata s) !! githubId = Some avatar →
  lastUpdated avatar = Some lu →
  (shouldDownloadAvatar (CONFIG false) env githubId filePath s).1 = true
  ↔ lu = 0%Z ∨ (clock env (ticks s) - lu > maxAgeMs (CONFIG false))%Z.
Proof.
  intros Hf Ha Hlu.
  unfold shouldDownloadAvatar, existsSync, Date_now. run_M.
  rewrite bool_decide_eq_true_2 by done. cbn.
  rewrite Ha, Hlu. cbn.
  destruct (Z.eqb_spec lu 0) as [|Hnz]; cbn; [by split; auto|].
  rewrite Z.ltb_lt. split; [intros; right; lia|].
  intros [? | ?]; [done | lia].
Qed.

(** C3, as amended. With [force] unset, an entry that is present with
    a [lastUpdated] (and, for the batch job, whose file exists) is
    judged stale exactly when its [lastUpdated] is 0 or the clock
    reading minus [lastUpdated] strictly exceeds the 7-day limit; so an
    entry stamped 0 is judged stale whatever its age, and one with a
    non-zero stamp is judged fresh when its age is at most the limit. *)
Theorem stale_iff_older_than_ttl :
  (∀ (env : AvatarService.Env) (s : AvatarService.State)
     (githubId : string) (m : AvatarService.Metadata)
     (avatar : AvatarMeta) (lu : Z),
     AvatarService.window env = true →
     AvatarService.localStorage s = AvatarService.Item m →
     AvatarService.avatars m !! githubId = Some avatar →
     lastUpdated avatar = Some lu →
     (AvatarService.needsRefresh env githubId s).1 = true
     ↔ lu = 0%Z
       ∨ (AvatarService.clock env (AvatarService.ticks s) - lu
            > 7 * 24 * 60 * 60 * 1000)%Z)
  ∧
  (∀ (env : Env) (s : State) (githubId filePath : string)
     (avatar : AvatarMeta) (lu : Z),
     is_Some (files s !! filePath) →
     avatars (metadata s) !! githubId = Some avatar →
     lastUpdated avatar = Some lu →
     (shouldDownloadAvatar (CONFIG false) env githubId filePath s).1 = true
     ↔ lu = 0%Z ∨ (clock env (ticks s) - lu > 7 * 24 * 60 * 60 * 1000)%Z).
Proof.
  split; intros.
  - by eapply needsRefresh_by_age.
  - by eapply shouldDownloadAvatar_by_age.
Qed.

Lemma stale_iff_older_than_ttl_witness :
  ((AvatarService.needsRefresh (Samples.browser 2000) "alice"
      (Samples.alice_stored (Some 1000%Z) 0)).1 = true
   ↔ 1000%Z = 0%Z ∨ (2000 - 1000 > 7 * 24 * 60 * 60 * 1000)%Z)
  ∧
  ((shouldDownloadAvatar (CONFIG false) (Samples.host 2000) "alice"
      "/site/static/img/avatars/alice.png"
      (Samples.alice_on_disk (Some 0%Z) true)).1 = true
   ↔ 0%Z = 0%Z ∨ (2000 - 0 > 7 * 24 * 60 * 60 * 1000)%Z).
Proof.
  split.
  - eapply (proj1 stale_iff_older_than_ttl (Samples.browser 2000)
              (Samples.alice_stored (Some 1000%Z) 0) "alice" _ _ 1000%Z);
      [reflexivity | reflexivity | reflexivity | reflexivity].
  - eapply (proj2 stale_iff_older_than_ttl (Samples.host 2000)
              (Samples.alice_on_disk (Some 0%Z) true) "alice" _ _ 0%Z);
      [by eexists | reflexivity | reflexivity].
Defined.

(** C3 as stated fails on an entry whose [lastUpdated] is [0]: one
    second after the epoch its age is within the limit, and both
    variants still judge it stale. *)
Lemma zero_timestamp_judged_stale :
  (1000 - 0 ≤ 7 * 24 * 60 * 60 * 1000)%Z
  ∧ (AvatarService.needsRefresh (Samples.browser 1000) "alice"
       (Samples.alice_stored (Some 0%Z) 0)).1 = true
  ∧ (shouldDownloadAvatar (CONFIG false) (Samples.host 1000) "alice"
       "/site/static/img/avatars/alice.png"
       (Samples.alice_on_disk (Some 0%Z) true)).1 = true.
Proof. split; [lia | split; reflexivity]. Qed.

(** C4. Whatever the clock reads, a key with no entry, or with an
    entry that has no [lastUpdated], is stale in both variants (also in
    the storage-free service, which always answers true); and the
    batch job judges a key stale whenever its file is absent, whatever
    the metadata says. *)
Theorem stale_when_unrecorded_or_file_absent :
  (∀ (env : AvatarService.Env) (s : AvatarService.State)
     (githubId : string),
     AvatarService.avatars (AvatarService.getMetadata env s).1 !! githubId
       ≫= lastUpdated = None →
     (AvatarService.needsRefresh env githubId s).1 = true)
  ∧
  (∀ (force : bool) (env : Env) (s : State) (githubId filePath : string),
     avatars (metadata s) !! githubId ≫= lastUpdated = None →
     (shouldDownloadAvatar (CONFIG force) env githubId filePath s).1 = true)
  ∧
  (∀ (force : bool) (env : Env) (s : State) (githubId filePath : string),
     files s !! filePath = None →
     (shouldDownloadAvatar (CONFIG force) env githubId filePath s).1 = true)
  ∧
  (∀ githubId : string, AvatarServicePlain.needsRefresh githubId = true).
Proof.
  split; [|split; [|split]]; [| | |done].
  - intros env s githubId.
    unfold AvatarService.needsRefresh. run_M.
    destruct (AvatarService.getMetadata env s) as [m s'] eqn:Hm. cbn.
    destruct (AvatarService.avatars m !! githubId) as [avatar|]; [|done].
    cbn. intros ->. done.
  - intros force env s githubId filePath.
    unfold shouldDownloadAvatar, existsSync. run_M.
    destruct force; [done|].
    destruct (bool_decide _); [|done]. cbn.
    destruct (avatars (metadata s) !! githubId) as [avatar|]; [|done].
    cbn. intros ->. done.
  - intros force env s githubId filePath Hf.
    unfold shouldDownloadAvatar, existsSync. run_M.
    destruct force; [done|].
    rewrite bool_decide_eq_false_2; [done|].
    rewrite Hf. by intros [? ?].
Qed.

Lemma stale_when_unrecorded_or_file_absent_witness :
  (AvatarService.needsRefresh (Samples.browser 2000) "bob"
     (Samples.alice_stored (Some 1000%Z) 0)).1 = true
  ∧ (AvatarService.needsRefresh (Samples.browser 2000) "alice"
       (Samples.alice_stored None 0)).1 = true
  ∧ (shouldDownloadAvatar (CONFIG false) (Samples.host 2000) "alice"
       "/site/static/img/avatars/alice.png"
       (Samples.alice_on_disk None true)).1 = true
  ∧ (shouldDownloadAvatar (CONFIG false) (Samples.host 2000) "alice"
       "/site/static/img/avatars/alice.png"
       (Samples.alice_on_disk (Some 1000%Z) false)).1 = true.
Proof.
  split; [|split; [|split]].
  - apply (proj1 stale_when_unrecorded_or_file_absent). reflexivity.
  - apply (proj1 stale_when_unrecorded_or_file_absent). reflexivity.
  - apply (proj1 (proj2 stale_when_unrecorded_or_file_absent)).
    reflexivity.
  - apply (proj1 (proj2 (proj2 stale_when_unrecorded_or_file_absent))).
    reflexivity.
Defined.
End Staleness.

(** ** Remote fetcher *)
Section Fetcher.
Import DownloadAvatars.

Lemma redirect_code_test (statusCode : Z) :
  (statusCode = 301 ∨ statusCode = 302)%Z →
  (statusCode =? 301)%Z || (statusCode =? 302)%Z = true.
Proof. intros [-> | ->]; reflexivity. Qed.

(** C6. A redirect (301 or 302) that carries no [Location], met at the
    first request or after any number of followed redirects, rejects
    the download with the redirect error, and the whole state, so also
    the destination path, is as it was before the download. *)
Theorem redirect_without_location_rejected (env : Env) (n fuel : nat)
    (url0 url outputPath : string) (s : State)
    (statusCode : Z) (body : string) :
  nsteps (redirects_to env) n url0 url →
  https_get env url = Response statusCode None body →
  (statusCode = 301 ∨ statusCode = 302)%Z →
  downloadFile (S n + fuel) env url0 outputPath s
  = (Some (Rejected (RedirectError url)), s).
Proof.
  intros Hchain Hlast Hcode.
  induction Hchain as [url | n url0 url1 url [sc [loc [b (Hget & Hsc & Hloc)]]] _ IH].
  - cbn. rewrite Hlast, (redirect_code_test _ Hcode). reflexivity.
  - specialize (IH Hlast).
    change (S (S n) + fuel) with (S (S n + fuel)).
    cbn [downloadFile]. rewrite Hget, (redirect_code_test _ Hsc), Hloc.
    exact IH.
Qed.

Lemma redirect_without_location_rejected_witness :
  downloadFile 2 (Samples.broken_host 1000)
    "https://github.com/alice.png?size=128"
    "/site/static/img/avatars/alice.png" Samples.empty_disk
  = (Some (Rejected (RedirectError "https://github.com/moved")),
     Samples.empty_disk).
Proof.
  apply (redirect_without_location_rejected (Samples.broken_host 1000) 1 0
           "https://github.com/alice.png?size=128"
           "https://github.com/moved"
           "/site/static/img/avatars/alice.png" Samples.empty_disk 302 "").
  - apply nsteps_once.
    exists 301%Z, (Some "https://github.com/moved"), "".
    split; [reflexivity | split; [left; reflexivity | reflexivity]].
  - reflexivity.
  - right; reflexivity.
Defined.

Lemma forEach_githubId_tasks (cfg : Config) (env : Env)
    (githubIds : list string) (c : Counters) (promises : list Task)
    (s : State) (t : Task) :
  t ∈ (forEach_githubId cfg env githubIds c promises s).1.2 →
  t ∈ promises
  ∨ (task_id t ∈ githubIds
     ∧ task_url t = avatarUrl_of cfg (task_id t)
     ∧ task_path t = outputPath_of env (task_id t)).
Proof.
  revert c promises s.
  induction githubIds as [|githubId rest IH]; intros c promises s.
  - cbn. auto.
  - cbn [forEach_githubId]. unfold mbind, M_bind at 1.
    destruct (shouldDownloadAvatar _ _ _ _ s) as [should s1].
    destruct should; cbn [negb]; intros Ht; apply IH in Ht.
    + destruct Ht as [Ht | (? & ? & ?)].
      * apply elem_of_app in Ht as [Ht | Ht]; [by left|].
        apply list_elem_of_singleton in Ht as ->. right. cbn.
        split; [left | done].
      * right. split; [by right | done].
    + destruct Ht as [Ht | (? & ? & ?)]; [by left|].
      right. split; [by right | done].
Qed.

Lemma trace_downloadAvatar (env : AvatarService.Env) (githubId : string)
    (s : AvatarService.State) :
  ∃ rest,
    AvatarService.trace (AvatarService.downloadAvatar env githubId s).2
    = AvatarService.trace s
        ++ AvatarService.Fetch
             (AvatarService.avatarUrl_of githubId
                (AvatarService.clock env (AvatarService.ticks s)))
           :: rest
    ∧ ∀ url, AvatarService.Fetch url ∉ rest.
Proof.
  unfold AvatarService.downloadAvatar, AvatarService.Date_now,
    AvatarService.emit, AvatarService.saveMetadata,
    AvatarService.getMetadata.
  run_M.
  destruct (AvatarService.remote env _) as [status blob|]; cbn.
  2: { exists []. split; [done | intros url Hin; by apply elem_of_nil in Hin]. }
  destruct (AvatarService.ok status); cbn.
  2: { exists []. split; [done | intros url Hin; by apply elem_of_nil in Hin]. }
  destruct (AvatarService.save_avatar env githubId) as [saveStatus ?|]; cbn.
  2: { eexists [_]. rewrite <- app_assoc. split; [done|].
       intros url Hin. apply list_elem_of_singleton in Hin. done. }
  destruct (AvatarService.ok saveStatus); cbn.
  2: { eexists [_]. rewrite <- app_assoc. split; [done|].
       intros url Hin. apply list_elem_of_singleton in Hin. done. }
  destruct (AvatarService.window env); cbn.
  - destruct (AvatarService.localStorage s); cbn;
      destruct (AvatarService.setItem_throws env _); cbn;
      first
        [ eexists [_]; rewrite <- app_assoc; split; [done|];
          intros url Hin; apply list_elem_of_singleton in Hin; done
        | eexists [_; _]; rewrite <- !app_assoc; split; [done|];
          intros url Hin; apply elem_of_cons in Hin as [Hin | Hin]; [done|];
          apply list_elem_of_singleton in Hin; done ].
  - eexists [_]. rewrite <- app_assoc. split; [done|].
    intros url Hin. apply list_elem_of_singleton in Hin. done.
Qed.

(** C5, as amended. For every key the batch job launches its download
    on exactly [https://github.com/<key>.png?size=128]; the browser
    fetches that URL followed by [&t=] and the current clock reading,
    and issues no other fetch for the key. *)
Theorem fetcher_urls :
  (∀ (force : bool) (env : Env) (githubIds : list string) (c : Counters)
     (s : State) (t : Task),
     t ∈ (forEach_githubId (CONFIG force) env githubIds c [] s).1.2 →
     task_id t ∈ githubIds
     ∧ task_url t = "https://github.com/" +:+ task_id t +:+ ".png?size=128")
  ∧
  (∀ (env : AvatarService.Env) (githubId : string)
     (s : AvatarService.State),
     ∃ rest,
       AvatarService.trace (AvatarService.downloadAvatar env githubId s).2
       = AvatarService.trace s
           ++ AvatarService.Fetch
                ("https://github.com/" +:+ githubId +:+ ".png?size=128"
                   +:+ "&t="
                   +:+ js_string_of
                         (AvatarService.clock env (AvatarService.ticks s)))
              :: rest
       ∧ ∀ url, AvatarService.Fetch url ∉ rest).
Proof.
  split.
  - intros force env githubIds c s t Ht.
    apply forEach_githubId_tasks in Ht as [Ht | (Hid & Hurl & _)].
    + by apply elem_of_nil in Ht.
    + split; [done|]. rewrite Hurl. reflexivity.
  - intros env githubId s.
    destruct (trace_downloadAvatar env githubId s) as (rest & Htr & Hno).
    exists rest. split; [|done]. rewrite Htr. reflexivity.
Qed.

Lemma fetcher_urls_witness :
  (∀ t, t ∈ (forEach_githubId (CONFIG false) (Samples.host 1000)
               ["alice"; "bob"] no_counts [] Samples.empty_disk).1.2 →
        task_id t ∈ ["alice"; "bob"]
        ∧ task_url t
          = "https://github.com/" +:+ task_id t +:+ ".png?size=128")
  ∧ (forEach_githubId (CONFIG false) (Samples.host 1000)
       ["alice"; "bob"] no_counts [] Samples.empty_disk).1.2
    = [ {| task_id := "alice";
           task_url := "https://github.com/alice.png?size=128";
           task_path := "/site/static/img/avatars/alice.png" |};
        {| task_id := "bob";
           task_url := "https://github.com/bob.png?size=128";
           task_path := "/site/static/img/avatars/bob.png" |} ].
Proof.
  split.
  - intros t. apply (proj1 fetcher_urls).
  - reflexivity.
Defined.

(** C5 as stated fails for the browser: the URL it fetches for alice
    carries the extra parameter [t]. *)
Lemma client_fetch_url_has_extra_parameter :
  AvatarService.trace
    (AvatarService.downloadAvatar (Samples.browser 1700000000000) "alice"
       (AvatarService.initial AvatarService.NoItem)).2 !! 0
  = Some (AvatarService.Fetch
            "https://github.com/alice.png?size=128&t=1700000000000")
  ∧ "https://github.com/alice.png?size=128&t=1700000000000"
    ≠ "https://github.com/alice.png?size=128".
Proof. split; [reflexivity | discriminate]. Qed.
End Fetcher.

(** ** Batch reconciler *)
Section Reconciler.
Import DownloadAvatars.

Lemma same_disk_trans (s1 s2 s3 : State) :
  same_disk s1 s2 → same_disk s2 s3 → same_disk s1 s3.
Proof.
  intros (? & ? & ?) (? & ? & ?). repeat split; congruence.
Qed.

(** *** The download of one file *)

Lemma downloadFile_effect (fuel : nat) (env : Env) (url outputPath : string)
    (s : State) :
  match (downloadFile fuel env url outputPath s).1 with
  | Some Resolved =>
      ∃ body, (downloadFile fuel env url outputPath s).2
              = set_files (<[outputPath := body]> (files s)) s
  | Some (Rejected _) =>
      (downloadFile fuel env url outputPath s).2 = s
      ∨ (downloadFile fuel env url outputPath s).2
        = set_files (delete outputPath (files s)) s
  | None => (downloadFile fuel env url outputPath s).2 = s
  end.
Proof.
  revert url. induction fuel as [|fuel IH]; intros url; [done|].
  cbn [downloadFile].
  destruct (https_get env url) as [statusCode location body| |];
    [|by left..].
  destruct ((statusCode =? 301)%Z || (statusCode =? 302)%Z).
  { destruct (location_target location) as [target|]; [apply IH | by left]. }
  destruct (statusCode =? 200)%Z; cbn; [|by left].
  destruct (stream_error env outputPath); cbn; [by right | by eexists].
Qed.

(** *** The staleness test inside the loop *)

Lemma shouldDownloadAvatar_disk (cfg : Config) (env : Env)
    (githubId filePath : string) (s : State) :
  same_disk s (shouldDownloadAvatar cfg env githubId filePath s).2.
Proof.
  unfold shouldDownloadAvatar, existsSync, Date_now. run_M.
  destruct (forceDownload cfg); [done|].
  destruct (bool_decide _); [|done]. cbn.
  destruct (avatars (metadata s) !! githubId) as [avatar|]; [|done].
  destruct (truthy (lastUpdated avatar)); done.
Qed.




(** *** The loop over the roster *)

Lemma forEach_githubId_cons (cfg : Config) (env : Env) (githubId : string)
    (rest : list string) (c : Counters) (promises : list Task) (s : State) :
  forEach_githubId cfg env (githubId :: rest) c promises s
  = let r := shouldDownloadAvatar cfg env githubId
               (outputPath_of env githubId) s in
    if r.1 then
      forEach_githubId cfg env rest c
        (promises ++ [{| task_id := githubId;
                         task_url := avatarUrl_of cfg githubId;
                         task_path := outputPath_of env githubId |}]) r.2
    else forEach_githubId cfg env rest (count_skipped c) promises r.2.
Proof.
  cbn [forEach_githubId]. unfold mbind, M_bind.
  by destruct (shouldDownloadAvatar _ _ _ _ s) as [[] ?].
Qed.

Lemma forEach_githubId_counts (cfg : Config) (env : Env)
    (githubIds : list string) (c : Counters) (promises : list Task)
    (s : State) :
  downloaded (forEach_githubId cfg env githubIds c promises s).1.1
    = downloaded c
  ∧ failed (forEach_githubId cfg env githubIds c promises s).1.1 = failed c
  ∧ skipped (forEach_githubId cfg env githubIds c promises s).1.1
      + length (forEach_githubId cfg env githubIds c promises s).1.2
    = skipped c + length promises + length githubIds
  ∧ same_disk s (forEach_githubId cfg env githubIds c promises s).2.
Proof.
  revert c promises s.
  induction githubIds as [|githubId rest IH]; intros c promises s.
  - cbn. repeat split; lia.
  - rewrite forEach_githubId_cons. cbv zeta.
    pose proof (shouldDownloadAvatar_disk cfg env githubId
                  (outputPath_of env githubId) s) as Hdisk.
    destruct (shouldDownloadAvatar _ _ _ _ s) as [should s1].
    cbn [fst snd] in Hdisk |- *.
    destruct should.
    + destruct (IH c (promises ++ [{| task_id := githubId;
                   task_url := avatarUrl_of cfg githubId;
                   task_path := outputPath_of env githubId |}]) s1)
        as (Hd & Hf & Hs & Hsame).
      rewrite length_app in Hs. cbn [length] in Hs |- *.
      split; [done|]. split; [done|]. split; [lia|].
      by eapply same_disk_trans.
    + destruct (IH (count_skipped c) promises s1) as (Hd & Hf & Hs & Hsame).
      cbn [count_skipped downloaded failed skipped length] in Hd, Hf, Hs |- *.
      split; [done|]. split; [done|]. split; [lia|].
      by eapply same_disk_trans.
Qed.

(** *** The handlers *)

Lemma settle_cons (fuel : nat) (env : Env) (t : Task) (rest : list Task)
    (c : Counters) (s : State) :
  settle fuel env (t :: rest) c s
  = let r := downloadFile fuel env (task_url t) (task_path t) s in
    match r.1 with
    | None => (None, r.2)
    | Some Resolved =>
        settle fuel env rest (count_downloaded c)
          (set_metadata
             (record_avatar (task_id t) (clock env (ticks r.2))
                (task_path t) (metadata r.2))
             (set_ticks (S (ticks r.2)) r.2))
    | Some (Rejected _) => settle fuel env rest (count_failed c) r.2
    end.
Proof.
  cbn [settle]. unfold mbind, M_bind.
  by destruct (downloadFile _ _ _ _ s) as [[[|err]|] s1].
Qed.

Lemma settle_counts (fuel : nat) (env : Env) (sched : list Task)
    (c c' : Counters) (s : State) :
  (settle fuel env sched c s).1 = Some c' →
  downloaded c' + failed c' = downloaded c + failed c + length sched
  ∧ skipped c' = skipped c.
Proof.
  revert c s. induction sched as [|t rest IH]; intros c s.
  - cbn. intros [= <-]. lia.
  - rewrite settle_cons. cbv zeta.
    destruct (downloadFile _ _ _ _ s) as [[[|err]|] s1]; cbn [fst snd];
      [| |done].
    + intros Hr. apply IH in Hr. cbn in Hr |- *. lia.
    + intros Hr. apply IH in Hr. cbn in Hr |- *. lia.
Qed.

Lemma settle_completes (fuel : nat) (env : Env) (sched : list Task)
    (c : Counters) (s : State) :
  Forall (λ t, fetch_settles fuel env (task_url t) (task_path t)) sched →
  is_Some (settle fuel env sched c s).1.
Proof.
  intros Hall. revert c s.
  induction Hall as [|t rest Ht _ IH]; intros c s; [by eexists|].
  rewrite settle_cons. cbv zeta.
  specialize (Ht s).
  destruct (downloadFile _ _ _ _ s) as [[[|err]|] s1]; cbn [fst snd] in *;
    [apply IH | apply IH | done].
Qed.

Lemma downloadAvatars_eq (fuel : nat) (cfg : Config) (env : Env)
    (githubIds : list string) (s : State) :
  downloadAvatars fuel cfg env githubIds s
  = let r1 := forEach_githubId cfg env githubIds no_counts [] s in
    let r2 := settle fuel env (completion_order env r1.1.2) r1.1.1 r1.2 in
    (summary_of githubIds <$> r2.1, r2.2).
Proof.
  unfold downloadAvatars, mbind, M_bind.
  destruct (forEach_githubId _ _ _ _ _ s) as [[c promises] s1].
  cbn [fst snd]. by destruct (settle _ _ _ _ s1).
Qed.

(** The counters of a run that starts from loaded metadata of the
    shape the script writes (a record with its [avatars] object, so
    that no handler of a resolved download throws), and whose launched
    downloads each get their handler run: a summary, when the batch
    produces one, has [downloaded + skipped + failed] equal to the
    length of the roster (which is also its [total]); and the batch does
    produce one as soon as every download settles. *)
Theorem every_key_counted_once (fuel : nat) (force : bool) (env : Env)
    (githubIds : list string) (s : State) :
  fair env →
  (∀ sum,
     (downloadAvatars fuel (CONFIG force) env githubIds s).1 = Some sum →
     s_downloaded sum + s_skipped sum + s_failed sum = length githubIds
     ∧ s_total sum = length githubIds)
  ∧ ((∀ githubId, githubId ∈ githubIds →
        fetch_settles fuel env (avatarUrl_of (CONFIG force) githubId)
          (outputPath_of env githubId)) →
     is_Some (downloadAvatars fuel (CONFIG force) env githubIds s).1).
Proof.
  intros Hfair. rewrite downloadAvatars_eq. cbv zeta. cbn [fst].
  pose proof (forEach_githubId_counts (CONFIG force) env githubIds
                no_counts [] s) as (Hd & Hf & Hs & _).
  pose proof (forEach_githubId_tasks (CONFIG force) env githubIds
                no_counts [] s) as Htasks.
  destruct (forEach_githubId _ _ _ _ _ s) as [[c promises] s1].
  cbn [fst snd] in *.
  split.
  - intros sum Hsum.
    apply fmap_Some in Hsum as (c' & Hc' & ->).
    apply settle_counts in Hc' as (Hdf & Hsk).
    rewrite (Permutation_length (Hfair promises)) in Hdf.
    cbn in *. split; [lia | done].
  - intros Hsettles. apply fmap_is_Some, settle_completes.
    apply Forall_forall. intros t Ht.
    rewrite (Hfair promises) in Ht.
    destruct (Htasks t Ht) as [Hnil | (Hid & -> & ->)].
    + by apply elem_of_nil in Hnil.
    + by apply Hsettles.
Qed.

Lemma every_key_counted_once_witness :
  (downloadAvatars 2 (CONFIG false) (Samples.broken_host 1000)
     ["alice"; "bob"; "alice"] (Samples.alice_on_disk (Some 1000%Z) true)).1
  = Some {| s_total := 3; s_downloaded := 0; s_skipped := 2;
            s_failed := 1 |}
  ∧ 0 + 2 + 1 = 3.
Proof.
  split; [reflexivity|].
  apply (proj1 (every_key_counted_once 2 false (Samples.broken_host 1000)
                  ["alice"; "bob"; "alice"]
                  (Samples.alice_on_disk (Some 1000%Z) true)
                  (λ l, reflexivity l))
           {| s_total := 3; s_downloaded := 0; s_skipped := 2;
              s_failed := 1 |}).
  reflexivity.
Defined.

(** *** Runs in which the launched downloads resolve *)




(** *** What the loop decides for each key *)







(** *** Two runs in a row *)






End Reconciler.

(** ** Client refresher and URL resolver *)
Section Session.
Import AvatarService.

(** *** Every operation only moves the session forward *)

Lemma later_refl (s : State) : later s s.
Proof. by split. Qed.

Lemma later_trans (s1 s2 s3 : State) :
  later s1 s2 → later s2 s3 → later s1 s3.
Proof.
  intros [Hf1 Ht1] [Hf2 Ht2]. split; [auto | by etrans].
Qed.

Lemma steady_ret {A : Type} (a : A) : steady (mret a).
Proof. intros s. apply later_refl. Qed.

Lemma steady_bind {A B : Type} (m : M State A) (f : A → M State B) :
  steady m → (∀ a, steady (f a)) → steady (m ≫= f).
Proof.
  intros Hm Hf s. unfold mbind, M_bind.
  specialize (Hm s). destruct (m s) as [a s1].
  eapply later_trans; [exact Hm | apply Hf].
Qed.

Lemma steady_get : steady (get : M State State).
Proof. intros s. apply later_refl. Qed.

Lemma steady_modify (f : State → State) :
  (∀ s, later s (f s)) → steady (modify f).
Proof. intros Hf s. apply Hf. Qed.

Lemma steady_Date_now (env : Env) : steady (Date_now env).
Proof. intros s. by split. Qed.

Lemma steady_emit (e : Effect) : steady (emit e).
Proof. intros s. split; [done|]. by apply prefix_app_r. Qed.

Ltac steady_step :=
  first
    [ apply steady_ret | apply steady_get | apply steady_Date_now
    | apply steady_emit
    | apply steady_modify; intros ?; split; done
    | apply steady_bind; [|intros ?]
    | case_match ].

Lemma steady_getMetadata (env : Env) : steady (getMetadata env).
Proof. unfold getMetadata. repeat steady_step. Qed.

Lemma steady_saveMetadata (env : Env) (metadata : Metadata) :
  steady (saveMetadata env metadata).
Proof. unfold saveMetadata. repeat steady_step. Qed.

Lemma steady_needsRefresh (env : Env) (githubId : string) :
  steady (needsRefresh env githubId).
Proof.
  unfold needsRefresh.
  apply steady_bind; [apply steady_getMetadata | intros ?].
  repeat steady_step.
Qed.

Lemma steady_getAvatarUrl (env : Env) (githubId : string) :
  steady (getAvatarUrl env githubId).
Proof.
  unfold getAvatarUrl. case_match; [|apply steady_ret].
  apply steady_bind; [apply steady_getMetadata | intros ?].
  repeat steady_step.
Qed.

Lemma steady_downloadAvatar (env : Env) (githubId : string) :
  steady (downloadAvatar env githubId).
Proof.
  unfold downloadAvatar.
  repeat first
    [ apply steady_getMetadata | apply steady_saveMetadata | steady_step ].
Qed.

Lemma steady_refresh_loop (env : Env) (githubIds : list string)
    (updated : nat) :
  steady (refresh_loop env githubIds updated).
Proof.
  revert updated.
  induction githubIds as [|githubId rest IH]; intros updated; cbn.
  - apply steady_ret.
  - apply steady_bind; [apply steady_needsRefresh | intros stale].
    destruct stale; [|apply IH].
    apply steady_bind; [apply steady_downloadAvatar | intros ?]. apply IH.
Qed.

Lemma steady_checkAndUpdateAvatars (env : Env) (githubIds : list string) :
  steady (checkAndUpdateAvatars env githubIds).
Proof.
  unfold checkAndUpdateAvatars, setTimeout.
  repeat first
    [ apply steady_getMetadata | apply steady_saveMetadata | steady_step ].
Qed.

Lemma steady_timer_fires (env : Env) : steady (timer_fires env).
Proof.
  unfold timer_fires.
  repeat first [ apply steady_refresh_loop | steady_step ].
Qed.

Lemma steady_step_event (env : Env) (ev : Event) : steady (step env ev).
Proof.
  destruct ev; cbn.
  - apply steady_checkAndUpdateAvatars.
  - apply steady_bind; [apply steady_getAvatarUrl | intros ?; apply steady_ret].
  - apply steady_timer_fires.
Qed.

Lemma steady_run (env : Env) (evs : list Event) : steady (run env evs).
Proof.
  induction evs as [|ev rest IH]; cbn; [apply steady_ret|].
  apply steady_bind; [apply steady_step_event | intros ?; apply IH].
Qed.

Lemma run_app (env : Env) (evs1 evs2 : list Event) (s : State) :
  run env (evs1 ++ evs2) s = run env evs2 (run env evs1 s).2.
Proof.
  revert s. induction evs1 as [|ev rest IH]; intros s; [done|].
  cbn. unfold mbind, M_bind. destruct (step env ev s) as [[] s1].
  apply IH.
Qed.

(** *** The four ways a call goes *)

Lemma checkAndUpdateAvatars_checked (env : Env) (githubIds : list string)
    (s : State) :
  updatesChecked s = true →
  checkAndUpdateAvatars env githubIds s = (tt, s).
Proof. intros Hflag. unfold checkAndUpdateAvatars. run_M. by rewrite Hflag. Qed.

Lemma checkAndUpdateAvatars_no_window (env : Env) (githubIds : list string)
    (s : State) :
  window env = false →
  checkAndUpdateAvatars env githubIds s = (tt, s).
Proof.
  intros Hw. unfold checkAndUpdateAvatars. run_M. rewrite Hw.
  by rewrite orb_true_r.
Qed.

Lemma checkAndUpdateAvatars_cooldown (env : Env) (githubIds : list string)
    (s : State) :
  window env = true → updatesChecked s = false →
  within_cooldown (getMetadata env s).1 (clock env (ticks s)) →
  checkAndUpdateAvatars env githubIds s
  = (tt, set_ticks (S (ticks s)) (set_updatesChecked true s)).
Proof.
  intros Hw Hflag [Hnz Hlt].
  unfold checkAndUpdateAvatars, getMetadata, Date_now in *.
  rewrite Hw in *. run_M. rewrite Hflag. cbn.
  destruct (localStorage s) as [| |m]; cbn in *; try done.
  destruct (Z.eqb_spec (lastCheck m) 0); [done|].
  destruct (Z.ltb_spec (clock env (ticks s) - lastCheck m) dayMs);
    [done | lia].
Qed.

Lemma checkAndUpdateAvatars_due (env : Env) (githubIds : list string)
    (s : State) :
  window env = true → updatesChecked s = false →
  ¬ within_cooldown (getMetadata env s).1 (clock env (ticks s)) →
  checkAndUpdateAvatars env githubIds s
  = (tt,
     let stamped := {| avatars := avatars (getMetadata env s).1;
                       lastCheck := clock env (ticks s) |} in
     if setItem_throws env stamped then
       {| updatesChecked := true;
          localStorage := localStorage s;
          timers := timers s ++ [githubIds];
          trace := trace s ++ [SetTimeout 2000];
          ticks := S (ticks s) |}
     else
       {| updatesChecked := true;
          localStorage := Item stamped;
          timers := timers s ++ [githubIds];
          trace := trace s ++ [SetItem stamped; SetTimeout 2000];
          ticks := S (ticks s) |}).
Proof.
  intros Hw Hflag Hdue. unfold within_cooldown in Hdue.
  unfold checkAndUpdateAvatars, getMetadata, Date_now, saveMetadata,
    setTimeout, emit in *.
  rewrite Hw in *. run_M. rewrite Hflag. cbn.
  destruct (localStorage s) as [| |m] eqn:Hstore; cbn in *.
  - destruct (setItem_throws env _); cbn; rewrite ?Hstore;
      by rewrite <- ?app_assoc.
  - destruct (setItem_throws env _); cbn; rewrite ?Hstore;
      by rewrite <- ?app_assoc.
  - destruct (Z.eqb_spec (lastCheck m) 0); cbn.
    + destruct (setItem_throws env _); cbn; rewrite ?Hstore;
      by rewrite <- ?app_assoc.
    + destruct (Z.ltb_spec (clock env (ticks s) - lastCheck m) dayMs).
      * exfalso. by apply Hdue.
      * destruct (setItem_throws env _); cbn; rewrite ?Hstore;
      by rewrite <- ?app_assoc.
Qed.

(** C7, as amended. In a browser: a call made when the session flag is
    already set changes nothing. A call made with the flag unset sets
    it and then, if a last check is recorded (not 0) and lies less than
    24 hours before the clock reading, issues no effect and leaves the
    stored metadata and the waiting callbacks as they were; otherwise
    it tries to store the metadata with [lastCheck] set to the clock
    reading and schedules the refresh. When the store takes the write,
    it holds the new [lastCheck] and the write is the first effect; when
    [setItem] throws, nothing is stored and the refresh is scheduled all
    the same. In both cases the call itself issues no fetch or save
    request: whatever follows in the session comes after the effects of
    the call. *)
Theorem call_in_browser (env : Env) (githubIds : list string) (s : State) :
  window env = true →
  let now := clock env (ticks s) in
  let metadata := (getMetadata env s).1 in
  let stamped := {| avatars := avatars metadata; lastCheck := now |} in
  let s' := (checkAndUpdateAvatars env githubIds s).2 in
  (updatesChecked s = true → s' = s)
  ∧ (updatesChecked s = false → within_cooldown metadata now →
       updatesChecked s' = true
       ∧ localStorage s' = localStorage s
       ∧ timers s' = timers s
       ∧ trace s' = trace s)
  ∧ (updatesChecked s = false → ¬ within_cooldown metadata now →
       updatesChecked s' = true
       ∧ timers s' = timers s ++ [githubIds]
       ∧ (setItem_throws env stamped = false →
            localStorage s' = Item stamped
            ∧ trace s' = trace s ++ [SetItem stamped; SetTimeout 2000])
       ∧ (setItem_throws env stamped = true →
            localStorage s' = localStorage s
            ∧ trace s' = trace s ++ [SetTimeout 2000])
       ∧ ∀ evs, trace s' `prefix_of` trace (run env evs s').2).
Proof.
  intros Hw now metadata stamped s'. subst s'.
  split; [|split].
  - intros Hflag. by rewrite checkAndUpdateAvatars_checked.
  - intros Hflag Hcool.
    by rewrite checkAndUpdateAvatars_cooldown.
  - intros Hflag Hdue.
    rewrite checkAndUpdateAvatars_due by done. cbv zeta. cbn [snd].
    fold metadata now stamped.
    split; [by destruct (setItem_throws env stamped)|].
    split; [by destruct (setItem_throws env stamped)|].
    split; [by intros ->|]. split; [by intros ->|].
    intros evs. apply steady_run.
Qed.

Lemma call_in_browser_witness :
  let s := AvatarService.initial AvatarService.NoItem in
  let stamped := {| avatars := ∅; lastCheck := 1700000000000 |} in
  let s' := (checkAndUpdateAvatars (Samples.browser 1700000000000)
               ["alice"] s).2 in
  localStorage s' = Item stamped
  ∧ trace s' = [SetItem stamped; SetTimeout 2000]
  ∧ ∃ rest,
      trace (run (Samples.browser 1700000000000) [TimerFires] s').2
      = [SetItem stamped; SetTimeout 2000]
          ++ Fetch "https://github.com/alice.png?size=128&t=1700000000000"
             :: rest.
Proof.
  intros s stamped s'.
  destruct (call_in_browser (Samples.browser 1700000000000) ["alice"] s
              eq_refl) as (_ & _ & Hdue).
  destruct Hdue as (_ & _ & Hstored & _ & _).
  - reflexivity.
  - intros [Hnz _]. by apply Hnz.
  - destruct (Hstored eq_refl) as [Hstore Htrace].
    split; [exact Hstore|]. split; [exact Htrace|].
    eexists. reflexivity.
Defined.

(** C7 as stated fails on a later call of a session that has been open
    for more than a day: the stored last check is 25 hours old, and the
    call neither writes a new one nor does anything else. *)
Lemma stale_check_not_rewritten_by_later_call :
  let s1 := (checkAndUpdateAvatars Samples.long_session ["alice"]
               (AvatarService.initial AvatarService.NoItem)).2 in
  let s2 := (checkAndUpdateAvatars Samples.long_session ["alice"] s1).2 in
  lastCheck (getMetadata Samples.long_session s1).1 = 1700000000000%Z
  ∧ (dayMs ≤ clock Samples.long_session (ticks s1) - 1700000000000)%Z
  ∧ s2 = s1.
Proof.
  cbv zeta. split; [reflexivity | split; [|reflexivity]].
  vm_compute. discriminate.
Qed.

(** C8. In a session that starts with the flag unset, once the
    refresher has been called, whatever else has happened since
    (renders, the deferred callback, other calls), a further call
    returns with the state exactly as it found it: no effect is
    issued and no metadata is written. *)
Theorem later_calls_do_nothing (env : Env) (item : StorageItem)
    (before between : list Event) (first next : list string) :
  let s := (run env (before ++ Call first :: between) (initial item)).2 in
  checkAndUpdateAvatars env next s = (tt, s).
Proof.
  intros s. destruct (window env) eqn:Hw.
  2: { by apply checkAndUpdateAvatars_no_window. }
  apply checkAndUpdateAvatars_checked. subst s.
  rewrite run_app. set (s0 := (run env before (initial item)).2).
  cbn [run]. unfold mbind, M_bind. cbn [step].
  assert (updatesChecked (checkAndUpdateAvatars env first s0).2 = true)
    as Hset.
  { destruct (updatesChecked s0) eqn:Hflag.
    - by rewrite checkAndUpdateAvatars_checked.
    - destruct (decide (within_cooldown (getMetadata env s0).1
                          (clock env (ticks s0)))) as [Hcool | Hdue].
      + by rewrite checkAndUpdateAvatars_cooldown.
      + rewrite checkAndUpdateAvatars_due by done. cbv zeta.
        by destruct (setItem_throws env _). }
  destruct (checkAndUpdateAvatars env first s0) as [[] s1].
  by apply (steady_run env between s1).
Qed.

(** A second call, made after the deferred callback of the first has
    run, adds nothing to the effects of the session. *)
Example second_call_adds_no_effect :
  trace (run (Samples.browser 1700000000000)
           [Call ["alice"]; TimerFires; Call ["alice"; "bob"]]
           (initial NoItem)).2
  = trace (run (Samples.browser 1700000000000)
             [Call ["alice"]; TimerFires] (initial NoItem)).2.
Proof. reflexivity. Qed.

(** C9, as amended. For every key, known to the store or not, and
    every store that is empty, does not parse or holds a metadata
    record: with [window] defined the resolver returns
    [/img/avatars/<key>.png?t=<timestamp>], where the timestamp is the
    key's stored [lastUpdated] when there is one and it is not 0
    (printed in decimal, for a timestamp in the range of safe integers),
    and the clock reading when there is none or it is 0; without
    [window], and in the storage-free service, it returns the plain
    [/img/avatars/<key>.png]. *)
Theorem avatar_url_resolved :
  (∀ (env : Env) (githubId : string) (s : State) (lu : Z),
     window env = true →
     avatars (getMetadata env s).1 !! githubId ≫= lastUpdated = Some lu →
     lu ≠ 0%Z →
     safe_integer lu →
     (getAvatarUrl env githubId s).1
     = "/img/avatars/" +:+ githubId +:+ ".png?t=" +:+ js_string_of lu)
  ∧ (∀ (env : Env) (githubId : string) (s : State),
       window env = true →
       truthy (avatars (getMetadata env s).1 !! githubId ≫= lastUpdated)
       = false →
       (getAvatarUrl env githubId s).1
       = "/img/avatars/" +:+ githubId +:+ ".png?t="
           +:+ js_string_of (clock env (ticks s)))
  ∧ (∀ (env : Env) (githubId : string) (s : State),
       window env = false →
       (getAvatarUrl env githubId s).1
       = "/img/avatars/" +:+ githubId +:+ ".png")
  ∧ (∀ githubId : string,
       AvatarServicePlain.getAvatarUrl githubId
       = "/img/avatars/" +:+ githubId +:+ ".png").
Proof.
  split; [|split; [|split]].
  - intros env githubId s lu Hw Hknown Hnz _.
    unfold getAvatarUrl. rewrite Hw. run_M.
    destruct (getMetadata env s) as [m s1]. cbn in *. rewrite Hknown. cbn.
    by destruct (Z.eqb_spec lu 0).
  - intros env githubId s Hw Hnone.
    unfold getAvatarUrl. rewrite Hw. run_M.
    assert ((getMetadata env s).2 = s) as Hsame.
    { unfold getMetadata. rewrite Hw. run_M. by destruct (localStorage s). }
    destruct (getMetadata env s) as [m s1]. cbn in *. subst s1.
    by rewrite Hnone.
  - intros env githubId s Hw. unfold getAvatarUrl. by rewrite Hw.
  - reflexivity.
Qed.

Lemma avatar_url_resolved_witness :
  (getAvatarUrl (Samples.browser 1700000000000) "alice"
     (Samples.alice_stored (Some 1600000000000%Z) 0)).1
  = "/img/avatars/alice.png?t=1600000000000"
  ∧ (getAvatarUrl (Samples.browser 1700000000000) "bob"
       (Samples.alice_stored (Some 1600000000000%Z) 0)).1
    = "/img/avatars/bob.png?t=1700000000000"
  ∧ (getAvatarUrl (Samples.browser 1700000000000) "alice"
       (Samples.alice_stored (Some 0%Z) 0)).1
    = "/img/avatars/alice.png?t=1700000000000"
  ∧ (getAvatarUrl (Samples.server_render 1700000000000) "alice"
       (Samples.alice_stored (Some 1600000000000%Z) 0)).1
    = "/img/avatars/alice.png".
Proof.
  split; [|split; [|split]].
  - apply (proj1 avatar_url_resolved (Samples.browser 1700000000000)
             "alice" (Samples.alice_stored (Some 1600000000000%Z) 0)
             1600000000000%Z).
    + reflexivity.
    + reflexivity.
    + lia.
    + unfold safe_integer, MAX_SAFE_INTEGER. lia.
  - apply (proj1 (proj2 avatar_url_resolved)
             (Samples.browser 1700000000000)
             "bob" (Samples.alice_stored (Some 1600000000000%Z) 0));
      reflexivity.
  - apply (proj1 (proj2 avatar_url_resolved)
             (Samples.browser 1700000000000)
             "alice" (Samples.alice_stored (Some 0%Z) 0));
      reflexivity.
  - apply (proj1 (proj2 (proj2 avatar_url_resolved))
             (Samples.server_render 1700000000000)
             "alice" (Samples.alice_stored (Some 1600000000000%Z) 0)).
    reflexivity.
Defined.

(** C9 as stated fails on a key whose stored [lastUpdated] is [0]: the
    URL carries the clock reading, not the stored timestamp. *)
Lemma zero_timestamp_not_used_in_url :
  avatars (getMetadata (Samples.browser 1700000000000)
             (Samples.alice_stored (Some 0%Z) 0)).1 !! "alice"
    ≫= lastUpdated = Some 0%Z
  ∧ (getAvatarUrl (Samples.browser 1700000000000) "alice"
       (Samples.alice_stored (Some 0%Z) 0)).1
    = "/img/avatars/alice.png?t=1700000000000"
  ∧ "/img/avatars/alice.png?t=1700000000000" ≠ "/img/avatars/alice.png?t=0".
Proof. split; [reflexivity | split; [reflexivity | discriminate]]. Qed.
End Session.

(** ** More on the remote fetcher of the batch job *)
Section FetcherMore.
Import DownloadAvatars.

(** X1. A chain of followed redirects that ends in a 200 whose body is
    written without error resolves, and the only change is that the
    destination path now holds the body of that last response. *)
Theorem redirects_followed_to_body (env : Env) (n fuel : nat)
    (url0 url outputPath : string) (s : State)
    (location : option string) (body : string) :
  nsteps (redirects_to env) n url0 url →
  https_get env url = Response 200 location body →
  stream_error env outputPath = false →
  downloadFile (S n + fuel) env url0 outputPath s
  = (Some Resolved, set_files (<[outputPath := body]> (files s)) s).
Proof.
  intros Hchain Hlast Hdisk.
  induction Hchain
    as [url | n url0 url1 url [sc [loc [b (Hget & Hsc & Hloc)]]] _ IH].
  - cbn. rewrite Hlast. cbn. rewrite Hdisk. reflexivity.
  - specialize (IH Hlast).
    change (S (S n) + fuel) with (S (S n + fuel)).
    cbn [downloadFile]. rewrite Hget, (redirect_code_test _ Hsc), Hloc.
    exact IH.
Qed.

Lemma redirects_followed_to_body_witness :
  downloadFile 2 (Samples.host 1000) "https://github.com/alice.png?size=128"
    "/site/static/img/avatars/alice.png" Samples.empty_disk
  = (Some Resolved,
     set_files {[ "/site/static/img/avatars/alice.png" := "png" ]}
       Samples.empty_disk).
Proof.
  apply (redirects_followed_to_body (Samples.host 1000) 1 0
           "https://github.com/alice.png?size=128"
           "https://avatars.githubusercontent.com/u/1"
           "/site/static/img/avatars/alice.png" Samples.empty_disk None "png").
  - apply nsteps_once.
    exists 302%Z, (Some "https://avatars.githubusercontent.com/u/1"), "".
    split; [reflexivity | split; [right; reflexivity | reflexivity]].
  - reflexivity.
  - reflexivity.
Defined.


(** X3. Whatever its outcome, a download leaves the metadata, the
    metadata file and every path other than its destination as they
    were, and reads no clock. *)
Theorem downloadFile_touches_only_destination (fuel : nat) (env : Env)
    (url outputPath : string) (s : State) :
  metadata (downloadFile fuel env url outputPath s).2 = metadata s
  ∧ metadataFile (downloadFile fuel env url outputPath s).2 = metadataFile s
  ∧ ticks (downloadFile fuel env url outputPath s).2 = ticks s
  ∧ ∀ p, p ≠ outputPath →
      files (downloadFile fuel env url outputPath s).2 !! p = files s !! p.
Proof.
  pose proof (downloadFile_effect fuel env url outputPath s) as Heff.
  destruct (downloadFile fuel env url outputPath s) as [[[|err]|] s1];
    cbn [fst snd] in *.
  - destruct Heff as [body ->]. cbn. repeat split; try done.
    intros p Hp. by rewrite lookup_insert_ne.
  - destruct Heff as [-> | ->]; cbn; repeat split; try done.
    intros p Hp. by rewrite lookup_delete_ne.
  - by subst.
Qed.

Lemma downloadFile_rejected_cases (fuel : nat) (env : Env)
    (url outputPath : string) (s : State) (err : Error) :
  (downloadFile fuel env url outputPath s).1 = Some (Rejected err) →
  (err = StorageError
   ∧ (downloadFile fuel env url outputPath s).2
     = set_files (delete outputPath (files s)) s)
  ∨ (err ≠ StorageError ∧ (downloadFile fuel env url outputPath s).2 = s).
Proof.
  revert url. induction fuel as [|fuel IH]; intros url; [done|].
  cbn [downloadFile].
  destruct (https_get env url) as [statusCode location body| |];
    [| intros [= <-]; by right..].
  destruct ((statusCode =? 301)%Z || (statusCode =? 302)%Z).
  { destruct (location_target location) as [target|]; [apply IH|].
    intros [= <-]. by right. }
  destruct (statusCode =? 200)%Z; cbn; [|intros [= <-]; by right].
  destruct (stream_error env outputPath); cbn; [|done].
  intros [= <-]. by left.
Qed.

(** X4. A download rejected for a redirect without [Location] or for
    a status other than 200 leaves the state, and so a file already at
    the destination, untouched. One rejected for a write error removes
    the destination file, also one that was there before, and the
    staleness test then judges the key stale whatever its metadata
    says. *)
Theorem rejected_download_effect (fuel : nat) (env : Env)
    (url outputPath : string) (s : State) (err : Error) :
  (downloadFile fuel env url outputPath s).1 = Some (Rejected err) →
  ((∃ from, err = RedirectError from)
   ∨ (∃ from statusCode, err = HttpError from statusCode) →
   (downloadFile fuel env url outputPath s).2 = s)
  ∧ (err = StorageError →
       files (downloadFile fuel env url outputPath s).2 !! outputPath = None
       ∧ ∀ force githubId,
           (shouldDownloadAvatar (CONFIG force) env githubId outputPath
              (downloadFile fuel env url outputPath s).2).1 = true).
Proof.
  intros Hrej.
  destruct (downloadFile_rejected_cases _ _ _ _ _ _ Hrej)
    as [[-> ->] | [Hne ->]].
  - split.
    { intros [[from [=]] | (from & statusCode & [=])]. }
    intros _.
    assert (files (set_files (delete outputPath (files s)) s) !! outputPath
            = None) as Hgone by apply lookup_delete_eq.
    split; [done|]. intros force githubId.
    unfold shouldDownloadAvatar, existsSync. run_M.
    destruct force; [done|].
    rewrite bool_decide_eq_false_2; [done|].
    cbn. rewrite Hgone. by intros [? ?].
  - split; [done|]. by intros ->.
Qed.

Lemma rejected_download_effect_witness :
  files (downloadFile 1 (Samples.full_disk_host 1000)
           "https://github.com/alice.png?size=128"
           "/site/static/img/avatars/alice.png"
           (Samples.alice_on_disk (Some 1000%Z) true)).2
    !! "/site/static/img/avatars/alice.png" = None
  ∧ (downloadFile 2 (Samples.broken_host 1000)
       "https://github.com/alice.png?size=128"
       "/site/static/img/avatars/alice.png"
       (Samples.alice_on_disk (Some 1000%Z) true)).2
    = Samples.alice_on_disk (Some 1000%Z) true.
Proof.
  split.
  - apply (rejected_download_effect 1 (Samples.full_disk_host 1000)
             "https://github.com/alice.png?size=128"
             "/site/static/img/avatars/alice.png"
             (Samples.alice_on_disk (Some 1000%Z) true) StorageError).
    + reflexivity.
    + reflexivity.
  - apply (rejected_download_effect 2 (Samples.broken_host 1000)
             "https://github.com/alice.png?size=128"
             "/site/static/img/avatars/alice.png"
             (Samples.alice_on_disk (Some 1000%Z) true)
             (RedirectError "https://github.com/moved")).
    + reflexivity.
    + left. by eexists.
Defined.
End FetcherMore.

(** ** More on the batch reconciler *)
Section ReconcilerMore.
Import DownloadAvatars.

(** *** The force flag *)

Lemma forEach_githubId_forced (env : Env) (githubIds : list string)
    (c : Counters) (promises : list Task) (s : State) :
  forEach_githubId (CONFIG true) env githubIds c promises s
  = ((c, promises ++ map (launch (CONFIG true) env) githubIds), s).
Proof.
  revert promises.
  induction githubIds as [|githubId rest IH]; intros promises.
  - cbn. by rewrite app_nil_r.
  - rewrite forEach_githubId_cons. cbn -[forEach_githubId].
    rewrite IH. by rewrite <- app_assoc.
Qed.

(** X5. With the force flag every key of the roster is launched, in
    roster order and without a look at the disk or the clock, and
    nothing is counted as skipped, in the loop or in a summary. *)
Theorem forced_run_skips_nothing (fuel : nat) (env : Env)
    (githubIds : list string) (s : State) :
  forEach_githubId (CONFIG true) env githubIds no_counts [] s
  = ((no_counts, map (launch (CONFIG true) env) githubIds), s)
  ∧ ∀ sum,
      (downloadAvatars fuel (CONFIG true) env githubIds s).1 = Some sum →
      s_skipped sum = 0.
Proof.
  split; [apply forEach_githubId_forced|].
  intros sum. rewrite downloadAvatars_eq. cbv zeta.
  rewrite forEach_githubId_forced. cbn [fst snd app].
  intros (c' & Hc' & ->)%fmap_Some.
  apply settle_counts in Hc' as (_ & Hsk). exact Hsk.
Qed.

(** *** The order of completion *)

Lemma downloadFile_result_indep (fuel : nat) (env : Env)
    (url outputPath : string) (s s' : State) :
  (downloadFile fuel env url outputPath s).1
  = (downloadFile fuel env url outputPath s').1.
Proof.
  revert url. induction fuel as [|fuel IH]; intros url; [done|].
  cbn [downloadFile].
  destruct (https_get env url) as [statusCode location body| |]; [|done..].
  destruct ((statusCode =? 301)%Z || (statusCode =? 302)%Z).
  { destruct (location_target location); [apply IH | done]. }
  destruct (statusCode =? 200)%Z; cbn; [|done].
  by destruct (stream_error env outputPath).
Qed.

Lemma settle_result_indep (fuel : nat) (env : Env) (sched : list Task)
    (c : Counters) (s s' : State) :
  (settle fuel env sched c s).1 = (settle fuel env sched c s').1.
Proof.
  revert c s s'. induction sched as [|t rest IH]; intros c s s'; [done|].
  rewrite !settle_cons. cbv zeta.
  rewrite (downloadFile_result_indep fuel env _ _ s s').
  destruct (downloadFile fuel env _ _ s').1 as [[|err]|]; [apply IH.. | done].
Qed.

Lemma settle_result_perm (fuel : nat) (env : Env) (sched sched' : list Task) :
  sched ≡ₚ sched' →
  ∀ (c : Counters) (s s' : State),
    (settle fuel env sched c s).1 = (settle fuel env sched' c s').1.
Proof.
  induction 1 as [|t l l' _ IH|t1 t2 l|l1 l2 l3 _ IH1 _ IH2]; intros c s s'.
  - done.
  - rewrite !settle_cons. cbv zeta.
    rewrite (downloadFile_result_indep fuel env _ _ s s').
    destruct (downloadFile fuel env _ _ s').1 as [[|err]|];
      [apply IH.. | done].
  - rewrite !settle_cons. cbv zeta.
    set (s1 := (downloadFile fuel env (task_url t2) (task_path t2) s).2).
    set (s1' := (downloadFile fuel env (task_url t1) (task_path t1) s').2).
    rewrite (downloadFile_result_indep fuel env (task_url t2) _ s s').
    destruct (downloadFile fuel env (task_url t2) (task_path t2) s').1
      as [[|err2]|] eqn:H2.
    + rewrite settle_cons. cbv zeta.
      rewrite (downloadFile_result_indep fuel env (task_url t1) _ _ s').
      destruct (downloadFile fuel env (task_url t1) (task_path t1) s').1
        as [[|err1]|] eqn:H1;
        rewrite ?settle_cons; cbv zeta;
        rewrite ?(downloadFile_result_indep fuel env (task_url t2) _ _ s'), ?H2;
        [apply settle_result_indep.. | done].
    + rewrite settle_cons. cbv zeta.
      rewrite (downloadFile_result_indep fuel env (task_url t1) _ _ s').
      destruct (downloadFile fuel env (task_url t1) (task_path t1) s').1
        as [[|err1]|] eqn:H1;
        rewrite ?settle_cons; cbv zeta;
        rewrite ?(downloadFile_result_indep fuel env (task_url t2) _ _ s'), ?H2;
        [apply settle_result_indep.. | done].
    + destruct (downloadFile fuel env (task_url t1) (task_path t1) s').1
        as [[|err1]|] eqn:H1;
        rewrite ?settle_cons; cbv zeta;
        rewrite ?(downloadFile_result_indep fuel env (task_url t2) _ _ s'), ?H2;
        done.
  - by rewrite (IH1 c s s), (IH2 c s s').
Qed.

Lemma downloadFile_with_order (fuel : nat) (env : Env)
    (order : list Task → list Task) (url outputPath : string) (s : State) :
  downloadFile fuel (with_order env order) url outputPath s
  = downloadFile fuel env url outputPath s.
Proof.
  revert url. induction fuel as [|fuel IH]; intros url; [done|].
  cbn [downloadFile with_order https_get stream_error].
  destruct (https_get env url) as [statusCode location body| |]; [|done..].
  destruct ((statusCode =? 301)%Z || (statusCode =? 302)%Z); [|done].
  destruct (location_target location); [apply IH | done].
Qed.

Lemma settle_with_order (fuel : nat) (env : Env)
    (order : list Task → list Task) (sched : list Task) (c : Counters)
    (s : State) :
  settle fuel (with_order env order) sched c s = settle fuel env sched c s.
Proof.
  revert c s. induction sched as [|t rest IH]; intros c s; [done|].
  rewrite !settle_cons. cbv zeta. rewrite downloadFile_with_order.
  destruct (downloadFile fuel env _ _ s).1 as [[|err]|]; [apply IH.. | done].
Qed.

Lemma forEach_githubId_with_order (cfg : Config) (env : Env)
    (order : list Task → list Task) (githubIds : list string) (c : Counters)
    (promises : list Task) (s : State) :
  forEach_githubId cfg (with_order env order) githubIds c promises s
  = forEach_githubId cfg env githubIds c promises s.
Proof.
  revert c promises s.
  induction githubIds as [|githubId rest IH]; intros c promises s; [done|].
  rewrite !forEach_githubId_cons. cbv zeta.
  change (shouldDownloadAvatar cfg (with_order env order) githubId
            (outputPath_of (with_order env order) githubId) s)
    with (shouldDownloadAvatar cfg env githubId (outputPath_of env githubId) s).
  destruct (shouldDownloadAvatar cfg env githubId _ s).1; apply IH.
Qed.

(** X6. The summary does not depend on the order in which the downloads
    complete: two worlds that differ only in that order give the same
    summary (or both give none). *)
Theorem summary_independent_of_completion_order (fuel : nat) (cfg : Config)
    (env : Env) (order : list Task → list Task) (githubIds : list string)
    (s : State) :
  fair env →
  (∀ l, order l ≡ₚ l) →
  (downloadAvatars fuel cfg (with_order env order) githubIds s).1
  = (downloadAvatars fuel cfg env githubIds s).1.
Proof.
  intros Hfair Horder. rewrite !downloadAvatars_eq. cbv zeta. cbn [fst].
  rewrite forEach_githubId_with_order, settle_with_order. f_equal.
  apply settle_result_perm.
  cbn [with_order completion_order].
  etrans; [apply Horder | symmetry; apply Hfair].
Qed.

Lemma summary_independent_of_completion_order_witness :
  (downloadAvatars 2 (CONFIG false)
     (with_order (Samples.broken_host 1000) reverse)
     ["alice"; "bob"; "carol"] (Samples.alice_on_disk (Some 1000%Z) true)).1
  = (downloadAvatars 2 (CONFIG false) (Samples.broken_host 1000)
       ["alice"; "bob"; "carol"] (Samples.alice_on_disk (Some 1000%Z) true)).1.
Proof.
  apply summary_independent_of_completion_order.
  - intros l. reflexivity.
  - intros l. apply reverse_Permutation.
Defined.

(** *** A roster that is up to date *)




(** *** What a run does to the metadata *)




(** *** A metadata file that does not parse *)






End ReconcilerMore.

(** ** The log of the cron script *)
Section CronLog.
Import Cron.

(** X12. Whatever the log held and however much the node script
    prints, after a run the log has at most 10000 lines, these are the
    last lines of the old log followed by this run's lines, the run's
    completion line and the blank line after it are the last two, and
    the exit status is 0. *)
Theorem log_stays_bounded (started completed : string)
    (node_output log : list string) :
  let run := cron_run started completed node_output log in
  (Z.of_nat (length run.1) ≤ 10000)%Z
  ∧ run.1 `suffix_of`
      log ++ ["===== Avatar Download Started: " +:+ started +:+ " ====="]
          ++ node_output
          ++ ["===== Avatar Download Completed: " +:+ completed +:+ " =====";
              ""]
  ∧ ["===== Avatar Download Completed: " +:+ completed +:+ " ====="; ""]
      `suffix_of` run.1
  ∧ run.2 = 0%Z.
Proof.
  cbv zeta. unfold cron_run. cbn [fst snd].
  rewrite <- !app_assoc. cbn [app].
  set (start := _ +:+ started +:+ _). set (done_ := _ +:+ completed +:+ _).
  set (full := log ++ start :: node_output ++ [done_; ""]).
  assert (full = (log ++ start :: node_output) ++ [done_; ""]) as Hfull.
  { unfold full. by rewrite <- app_assoc. }
  unfold trim, keep.
  destruct (Z.ltb_spec 10000 (Z.of_nat (length full))) as [Hlong | Hshort].
  - split; [rewrite length_drop; lia|].
    split; [apply suffix_drop|]. split; [|done].
    rewrite Hfull, drop_app_le.
    + by apply suffix_app_r.
    + rewrite length_app. cbn [length]. lia.
  - split; [done|]. split; [done|]. split; [|done].
    rewrite Hfull. by apply suffix_app_r.
Qed.
End CronLog.

(** ** More on the client refresher *)
Section SessionMore.
Import AvatarService.

Lemma downloadAvatar_unfold (env : Env) (githubId : string) (s : State) :
  downloadAvatar env githubId s
  = let url := avatarUrl_of githubId (clock env (ticks s)) in
    let s1 := {| updatesChecked := updatesChecked s;
                 localStorage := localStorage s; timers := timers s;
                 trace := trace s ++ [Fetch url]; ticks := S (ticks s) |} in
    match remote env url with
    | Failed => (false, s1)
    | Fulfilled status blob =>
        if negb (ok status) then (false, s1)
        else
          let s2 := {| updatesChecked := updatesChecked s;
                       localStorage := localStorage s; timers := timers s;
                       trace := trace s ++ [Fetch url;
                                            PostSaveAvatar githubId blob];
                       ticks := S (ticks s) |} in
          match save_avatar env githubId with
          | Failed => (false, s2)
          | Fulfilled saveStatus _ =>
              if negb (ok saveStatus) then (false, s2)
              else
                let stored := refreshed githubId (clock env (S (ticks s)))
                                (getMetadata env s).1 in
                (true,
                 if window env && negb (setItem_throws env stored) then
                   {| updatesChecked := updatesChecked s;
                      localStorage := Item stored; timers := timers s;
                      trace := trace s ++ [Fetch url;
                                           PostSaveAvatar githubId blob;
                                           SetItem stored];
                      ticks := S (S (ticks s)) |}
                 else
                   {| updatesChecked := updatesChecked s;
                      localStorage := localStorage s; timers := timers s;
                      trace := trace s ++ [Fetch url;
                                           PostSaveAvatar githubId blob];
                      ticks := S (S (ticks s)) |})
          end
    end.
Proof.
  unfold downloadAvatar, Date_now, emit, saveMetadata, getMetadata, refreshed.
  run_M.
  destruct (remote env _) as [status blob|]; [|done]. cbn.
  destruct (ok status); cbn; [|done].
  rewrite <- !app_assoc. cbn [app].
  destruct (save_avatar env githubId) as [saveStatus ?|]; [|done]. cbn.
  destruct (ok saveStatus); cbn; [|done].
  destruct (window env); cbn; [|done].
  destruct (localStorage s) eqn:Hstore; cbn;
    destruct (setItem_throws env _); cbn; rewrite ?Hstore;
    by rewrite <- ?app_assoc.
Qed.

(** X13. [downloadAvatar] answers true only when the remote fetch and
    the save request both settle with an ok response. When it answers
    false the stored metadata is as before and the only effects are the
    fetch, and the save request if the fetch was ok. When it answers
    true in a browser whose store takes the write, the store holds the
    old metadata with the key's entry replaced by one stamped with the
    second clock reading, and the write is the last effect; when it
    answers true and [setItem] throws, or there is no [window], the
    stored metadata is as before and no write is among the effects. *)
Theorem downloadAvatar_outcome (env : Env) (githubId : string) (s : State) :
  let url := avatarUrl_of githubId (clock env (ticks s)) in
  let stored := refreshed githubId (clock env (S (ticks s)))
                  (getMetadata env s).1 in
  let r := downloadAvatar env githubId s in
  (r.1 = true → succeeds (remote env url)
                ∧ succeeds (save_avatar env githubId))
  ∧ (r.1 = false →
       localStorage r.2 = localStorage s
       ∧ (trace r.2 = trace s ++ [Fetch url]
          ∨ ∃ blob, trace r.2
                    = trace s ++ [Fetch url; PostSaveAvatar githubId blob]))
  ∧ (r.1 = true → window env = true → setItem_throws env stored = false →
       localStorage r.2 = Item stored
       ∧ ∃ blob, trace r.2
                 = trace s ++ [Fetch url; PostSaveAvatar githubId blob;
                               SetItem stored])
  ∧ (r.1 = true → window env = false ∨ setItem_throws env stored = true →
       localStorage r.2 = localStorage s
       ∧ ∃ blob, trace r.2
                 = trace s ++ [Fetch url; PostSaveAvatar githubId blob]).
Proof.
  cbv zeta. rewrite downloadAvatar_unfold. cbv zeta. unfold succeeds.
  destruct (remote env _) as [status blob|]; cbn.
  2: { split; [done|]. split; [by eauto|]. done. }
  destruct (ok status) eqn:Hok; cbn.
  2: { split; [done|]. split; [by eauto|]. done. }
  destruct (save_avatar env githubId) as [saveStatus blob'|]; cbn.
  2: { split; [done|]. split; [by eauto|]. done. }
  destruct (ok saveStatus) eqn:Hsave; cbn.
  2: { split; [done|]. split; [by eauto|]. done. }
  split; [|split; [done|split]].
  - intros _. split; by eexists _, _.
  - intros _ -> ->. cbn. split; [done|]. by eexists.
  - intros _ [-> | ->]; cbn; rewrite ?andb_false_r; cbn;
      (split; [done|]); by eexists.
Qed.

(** *** The stored last check *)

Lemma needsRefresh_state (env : Env) (githubId : string) (s : State) :
  (needsRefresh env githubId s).2 = s
  ∨ (needsRefresh env githubId s).2 = set_ticks (S (ticks s)) s.
Proof.
  unfold needsRefresh, getMetadata, Date_now. run_M.
  destruct (window env); cbn; [|by left].
  destruct (localStorage s) as [| |m]; cbn; try by left.
  destruct (avatars m !! githubId) as [avatar|]; [|by left].
  destruct (truthy (lastUpdated avatar)); cbn; [by right | by left].
Qed.

Lemma checked_at_needsRefresh (env : Env) (githubId : string) (t : Z)
    (s : State) :
  checked_at t s → checked_at t (needsRefresh env githubId s).2.
Proof. by destruct (needsRefresh_state env githubId s) as [-> | ->]. Qed.

Lemma checked_at_downloadAvatar (env : Env) (githubId : string) (t : Z)
    (s : State) :
  window env = true →
  checked_at t s → checked_at t (downloadAvatar env githubId s).2.
Proof.
  intros Hw (m & Hm & Ht). rewrite downloadAvatar_unfold. cbv zeta.
  unfold checked_at.
  destruct (remote env _) as [status blob|]; cbn; [|by eauto].
  destruct (ok status); cbn; [|by eauto].
  destruct (save_avatar env githubId) as [saveStatus ?|]; cbn; [|by eauto].
  destruct (ok saveStatus); cbn; [|by eauto].
  rewrite Hw. cbn. destruct (setItem_throws env _); cbn; [by eauto|].
  eexists. split; [done|].
  unfold getMetadata. rewrite Hw. run_M. by rewrite Hm.
Qed.

Lemma checked_at_refresh_loop (env : Env) (githubIds : list string)
    (updated : nat) (t : Z) (s : State) :
  window env = true →
  checked_at t s → checked_at t (refresh_loop env githubIds updated s).2.
Proof.
  intros Hw. revert updated s.
  induction githubIds as [|githubId rest IH]; intros updated s Hs; [done|].
  cbn [refresh_loop]. unfold mbind, M_bind.
  pose proof (checked_at_needsRefresh env githubId t s Hs) as Hs1.
  destruct (needsRefresh env githubId s) as [[] s1]; cbn [snd] in Hs1.
  - pose proof (checked_at_downloadAvatar env githubId t s1 Hw Hs1) as Hs2.
    destruct (downloadAvatar env githubId s1) as [success s2].
    by apply IH.
  - by apply IH.
Qed.

Lemma checked_at_step (env : Env) (ev : Event) (t : Z) (s : State) :
  window env = true → updatesChecked s = true →
  checked_at t s → checked_at t (step env ev s).2.
Proof.
  intros Hw Hflag Hs. destruct ev as [githubIds | githubId |]; cbn [step].
  - by rewrite checkAndUpdateAvatars_checked.
  - unfold getAvatarUrl, getMetadata, Date_now. rewrite Hw. run_M.
    destruct Hs as (m & Hm & Ht). rewrite Hm. cbn.
    destruct (truthy _); cbn; by exists m.
  - unfold timer_fires. run_M.
    destruct (timers s) as [|githubIds waiting]; [done|]. cbn.
    pose proof (checked_at_refresh_loop env githubIds 0 t
                  (set_timers waiting s) Hw Hs) as Hloop.
    by destruct (refresh_loop env githubIds 0 (set_timers waiting s)).
Qed.

Lemma checked_at_run (env : Env) (evs : list Event) (t : Z) (s : State) :
  window env = true → updatesChecked s = true →
  checked_at t s → checked_at t (run env evs s).2.
Proof.
  intros Hw. revert s.
  induction evs as [|ev rest IH]; intros s Hflag Hs; [done|].
  cbn [run]. unfold mbind, M_bind.
  pose proof (checked_at_step env ev t s Hw Hflag Hs) as Hs1.
  pose proof (steady_step_event env ev s) as [Hflag1 _].
  destruct (step env ev s) as [[] s1]. cbn [snd] in *.
  apply IH; auto.
Qed.

(** X14. The cooldown outlives the page: once a call was due and the
    store took its write of a non-zero clock reading [t], then whatever
    the session goes on to do (renders, the deferred refresh with
    writes taken or refused, further calls), a call made by a fresh
    load of the page less than 24 hours after [t] only sets its flag:
    it stores nothing, schedules nothing and issues no effect. *)
Theorem cooldown_outlives_the_page (env env' : Env)
    (githubIds githubIds' : list string) (evs : list Event) (s : State) :
  window env = true → window env' = true →
  updatesChecked s = false →
  ¬ within_cooldown (getMetadata env s).1 (clock env (ticks s)) →
  setItem_throws env {| avatars := avatars (getMetadata env s).1;
                        lastCheck := clock env (ticks s) |} = false →
  clock env (ticks s) ≠ 0%Z →
  (clock env' 0 - clock env (ticks s) < dayMs)%Z →
  let left_behind := (run env (Call githubIds :: evs) s).2 in
  let reloaded := page_load left_behind in
  checkAndUpdateAvatars env' githubIds' reloaded
  = (tt, set_ticks 1 (set_updatesChecked true reloaded)).
Proof.
  intros Hw Hw' Hflag Hdue Htaken Hnz Hsoon left_behind reloaded.
  assert (checked_at (clock env (ticks s)) left_behind) as (m & Hm & Ht).
  { subst left_behind. cbn [run step]. unfold mbind, M_bind.
    rewrite checkAndUpdateAvatars_due by done. cbv zeta. rewrite Htaken.
    apply checked_at_run; [done | done |]. by eexists. }
  apply checkAndUpdateAvatars_cooldown; [done | done |].
  unfold within_cooldown, getMetadata. rewrite Hw'. run_M.
  rewrite Hm. cbn. by rewrite Ht.
Qed.

Lemma cooldown_outlives_the_page_witness :
  checkAndUpdateAvatars (Samples.browser 1700003600000) ["alice"; "bob"]
    (page_load
       (run (Samples.browser 1700000000000)
          [Call ["alice"]; TimerFires; Render "alice"]
          (initial NoItem)).2)
  = (tt,
     set_ticks 1
       (set_updatesChecked true
          (page_load
             (run (Samples.browser 1700000000000)
                [Call ["alice"]; TimerFires; Render "alice"]
                (initial NoItem)).2))).
Proof.
  apply (cooldown_outlives_the_page (Samples.browser 1700000000000)
           (Samples.browser 1700003600000) ["alice"] ["alice"; "bob"]
           [TimerFires; Render "alice"] (initial NoItem)).
  - reflexivity.
  - reflexivity.
  - reflexivity.
  - intros [Hnz _]. by apply Hnz.
  - reflexivity.
  - cbn. lia.
  - vm_compute. reflexivity.
Defined.

(** *** Passes of the deferred refresh *)

Lemma needsRefresh_recorded (env : Env) (githubId : string) (s : State)
    (m : Metadata) (avatar : AvatarMeta) (lu : Z) :
  window env = true →
  localStorage s = Item m →
  avatars m !! githubId = Some avatar →
  lastUpdated avatar = Some lu →
  lu ≠ 0%Z →
  (clock env (ticks s) - lu ≤ CACHE_EXPIRATION)%Z →
  needsRefresh env githubId s = (false, set_ticks (S (ticks s)) s).
Proof.
  intros Hw Hm Ha Hlu Hnz Hage.
  unfold needsRefresh, getMetadata, Date_now. rewrite Hw. run_M.
  rewrite Hm. cbn. rewrite Ha, Hlu. cbn.
  destruct (Z.eqb_spec lu 0); [done|]. cbn. f_equal.
  by apply Z.ltb_ge.
Qed.

Lemma needsRefresh_false (env : Env) (githubId : string) (s : State) :
  (needsRefresh env githubId s).1 = false →
  recorded_in_store s githubId.
Proof.
  unfold needsRefresh, getMetadata, Date_now, recorded_in_store. run_M.
  destruct (window env); cbn; [|done].
  destruct (localStorage s) as [| |m]; cbn; try done.
  destruct (avatars m !! githubId) as [avatar|] eqn:Ha; [|done].
  destruct (lastUpdated avatar) as [lu|] eqn:Hlu; [|done]. cbn.
  destruct (Z.eqb_spec lu 0); [done|]. cbn.
  intros _. by exists m, avatar, lu.
Qed.

Lemma recorded_in_store_storage (s s' : State) (githubId : string) :
  localStorage s' = localStorage s →
  recorded_in_store s githubId → recorded_in_store s' githubId.
Proof. intros Heq. unfold recorded_in_store. by rewrite Heq. Qed.

Lemma refresh_loop_all_fresh (env : Env) (githubIds : list string)
    (updated : nat) (s : State) :
  window env = true →
  (∀ githubId, githubId ∈ githubIds →
     ∃ m avatar lu,
       localStorage s = Item m
       ∧ avatars m !! githubId = Some avatar
       ∧ lastUpdated avatar = Some lu
       ∧ lu ≠ 0%Z
       ∧ ∀ j, j < length githubIds →
           (clock env (ticks s + j) - lu ≤ CACHE_EXPIRATION)%Z) →
  refresh_loop env githubIds updated s
  = (updated, set_ticks (ticks s + length githubIds) s).
Proof.
  intros Hw. revert s.
  induction githubIds as [|githubId rest IH]; intros s Hfresh.
  - cbn. unfold mret, M_ret. rewrite Nat.add_0_r. by destruct s.
  - cbn [refresh_loop]. unfold mbind, M_bind.
    destruct (Hfresh githubId (list_elem_of_here _ _))
      as (m & avatar & lu & Hm & Ha & Hlu & Hnz & Hage).
    rewrite (needsRefresh_recorded env githubId s m avatar lu); try done.
    2: { specialize (Hage 0). rewrite Nat.add_0_r in Hage.
         apply Hage. cbn. lia. }
    rewrite IH.
    + cbn [length]. rewrite Nat.add_succ_r. reflexivity.
    + intros id Hid.
      destruct (Hfresh id (list_elem_of_further _ _ _ Hid))
        as (m' & avatar' & lu' & Hm' & Ha' & Hlu' & Hnz' & Hage').
      exists m', avatar', lu'. cbn. repeat (split; [done|]).
      intros j Hj. replace (S (ticks s + j)) with (ticks s + S j) by lia.
      apply Hage'. cbn. lia.
Qed.

Lemma refresh_loop_records (env : Env) (githubIds : list string) :
  window env = true →
  (∀ url, succeeds (remote env url)) →
  (∀ githubId, succeeds (save_avatar env githubId)) →
  (∀ m, setItem_throws env m = false) →
  (∀ i, clock env i ≠ 0%Z) →
  ∀ (updated : nat) (s : State) (githubId : string),
    githubId ∈ githubIds ∨ recorded_in_store s githubId →
    recorded_in_store (refresh_loop env githubIds updated s).2 githubId.
Proof.
  intros Hw Hremote Hsave Htaken Hepoch.
  induction githubIds as [|first rest IH]; intros updated s githubId Hin.
  { destruct Hin as [Hin | Hfresh]; [by apply elem_of_nil in Hin | done]. }
  cbn [refresh_loop]. unfold mbind, M_bind.
  pose proof (needsRefresh_false env first s) as Hfalse.
  pose proof (needsRefresh_state env first s) as Hstate.
  destruct (needsRefresh env first s) as [stale s1]. cbn [fst snd] in *.
  assert (localStorage s1 = localStorage s) as Hsame
    by (by destruct Hstate as [-> | ->]).
  destruct stale.
  - (* the key is downloaded again *)
    pose proof (downloadAvatar_unfold env first s1) as Hdl. cbv zeta in Hdl.
    destruct (Hremote (avatarUrl_of first (clock env (ticks s1))))
      as (status & blob & Hr & Hok).
    destruct (Hsave first) as (saveStatus & blob' & Hs & Hok').
    rewrite Hr, Hok, Hs, Hok', Hw, Htaken in Hdl. cbn in Hdl. rewrite Hdl.
    apply IH.
    destruct (decide (githubId = first)) as [-> | Hne].
    + right. eexists _, _, _. cbn. split; [reflexivity|].
      split; [apply lookup_insert_eq|]. split; [reflexivity|].
      apply Hepoch.
    + destruct Hin as [[? | Hin]%elem_of_cons | Hfresh]; [done | by left |].
      right. destruct Hfresh as (m & avatar & lu & Hm & Ha & Hrest).
      exists (refreshed first (clock env (S (ticks s1))) m), avatar, lu.
      cbn. split.
      * unfold getMetadata. rewrite Hw. run_M. by rewrite Hsame, Hm.
      * split; [|done]. by rewrite lookup_insert_ne.
  - (* the key was found fresh *)
    apply IH.
    destruct (decide (githubId = first)) as [-> | Hne].
    + right. eapply recorded_in_store_storage; [exact Hsame|].
      by apply Hfalse.
    + destruct Hin as [[? | Hin]%elem_of_cons | Hfresh]; [done | by left |].
      right. by eapply recorded_in_store_storage.
Qed.

(** X15. In a browser where every fetch and every save request
    succeeds, the store takes every write and the clock does not read
    0, once the deferred refresh has gone through a roster, a further
    pass over the same roster (in this page or after a reload, on the
    same store), made while every timestamp the first pass left for the
    roster is at most 7 days behind each clock reading the further pass
    takes, issues no request and writes nothing: it only reads the clock
    once per key. *)
Theorem second_pass_issues_nothing (env env' : Env)
    (githubIds : list string) (updated updated' : nat) (s s' : State) :
  window env = true → window env' = true →
  (∀ url, succeeds (remote env url)) →
  (∀ githubId, succeeds (save_avatar env githubId)) →
  (∀ m, setItem_throws env m = false) →
  (∀ i, clock env i ≠ 0%Z) →
  let left_behind := (refresh_loop env githubIds updated s).2 in
  (∀ githubId m avatar lu j,
     githubId ∈ githubIds →
     localStorage left_behind = Item m →
     avatars m !! githubId = Some avatar →
     lastUpdated avatar = Some lu →
     j < length githubIds →
     (clock env' (ticks s' + j) - lu ≤ CACHE_EXPIRATION)%Z) →
  localStorage s' = localStorage left_behind →
  refresh_loop env' githubIds updated' s'
  = (updated', set_ticks (ticks s' + length githubIds) s').
Proof.
  intros Hw Hw' Hremote Hsave Htaken Hepoch left_behind Hage Hstore.
  apply refresh_loop_all_fresh; [done|].
  intros githubId Hin.
  destruct (refresh_loop_records env githubIds Hw Hremote Hsave Htaken
              Hepoch updated s githubId (or_introl Hin))
    as (m & avatar & lu & Hm & Ha & Hlu & Hnz).
  fold left_behind in Hm.
  exists m, avatar, lu. rewrite Hstore.
  repeat (split; [done|]).
  intros j Hj. by apply (Hage githubId m avatar lu j).
Qed.

Lemma second_pass_issues_nothing_witness :
  refresh_loop Samples.ticking_browser ["alice"; "bob"; "alice"] 0
    (refresh_loop Samples.ticking_browser ["alice"; "bob"; "alice"] 0
       (initial NoItem)).2
  = (0,
     set_ticks
       (ticks (refresh_loop Samples.ticking_browser
                 ["alice"; "bob"; "alice"] 0 (initial NoItem)).2 + 3)
       (refresh_loop Samples.ticking_browser
          ["alice"; "bob"; "alice"] 0 (initial NoItem)).2).
Proof.
  apply (second_pass_issues_nothing Samples.ticking_browser
           Samples.ticking_browser ["alice"; "bob"; "alice"] 0 0
           (initial NoItem)).
  - reflexivity.
  - reflexivity.
  - intros url. exists 200%Z, "png". split; reflexivity.
  - intros githubId. exists 200%Z, "". split; reflexivity.
  - reflexivity.
  - intros i. cbn. lia.
  - intros githubId m avatar lu j Hin [= <-] Ha Hlu Hj.
    unfold CACHE_EXPIRATION.
    replace (ticks (refresh_loop Samples.ticking_browser
                      ["alice"; "bob"; "alice"] 0 (initial NoItem)).2)
      with 5 by (vm_compute; reflexivity).
    apply elem_of_cons in Hin as [-> | Hin].
    { vm_compute in Ha. injection Ha as <-. injection Hlu as <-.
      cbn in Hj |- *. lia. }
    apply elem_of_cons in Hin as [-> | Hin].
    { vm_compute in Ha. injection Ha as <-. injection Hlu as <-.
      cbn in Hj |- *. lia. }
    apply elem_of_cons in Hin as [-> | Hin].
    { vm_compute in Ha. injection Ha as <-. injection Hlu as <-.
      cbn in Hj |- *. lia. }
    by apply elem_of_nil in Hin.
  - reflexivity.
Defined.

(** X16. A failing key does not stop the pass: when no remote fetch
    succeeds and no key of the roster has a usable timestamp in the
    store, the pass fetches for every key of the roster, in roster
    order, each URL built from the next clock reading; it issues no save
    request, stores nothing and reports no update. *)
Theorem every_key_is_tried_despite_failures (env : Env)
    (githubIds : list string) (updated : nat) (s : State) :
  (∀ url, ¬ succeeds (remote env url)) →
  (∀ githubId, githubId ∈ githubIds →
     truthy (avatars (getMetadata env s).1 !! githubId ≫= lastUpdated)
     = false) →
  refresh_loop env githubIds updated s
  = (updated,
     {| updatesChecked := updatesChecked s;
        localStorage := localStorage s;
        timers := timers s;
        trace := trace s
                   ++ imap (λ i githubId,
                              Fetch (avatarUrl_of githubId
                                       (clock env (ticks s + i))))
                        githubIds;
        ticks := ticks s + length githubIds |}).
Proof.
  intros Hdown. revert s.
  induction githubIds as [|githubId rest IH]; intros s Hnone.
  { cbn. unfold mret, M_ret. rewrite app_nil_r, Nat.add_0_r. by destruct s. }
  cbn [refresh_loop]. unfold mbind, M_bind.
  assert (needsRefresh env githubId s = (true, s)) as ->.
  { specialize (Hnone githubId (list_elem_of_here _ _)).
    unfold needsRefresh. run_M.
    destruct (getMetadata env s) as [m s1] eqn:Hm.
    assert (s1 = s) as ->.
    { unfold getMetadata in Hm. run_M.
      destruct (window env); cbn in Hm; [|congruence].
      destruct (localStorage s); cbn in Hm; congruence. }
    cbn in *. destruct (avatars m !! githubId) as [avatar|]; [|done].
    cbn in Hnone. by rewrite Hnone. }
  assert (downloadAvatar env githubId s
          = (false,
             {| updatesChecked := updatesChecked s;
                localStorage := localStorage s; timers := timers s;
                trace := trace s
                           ++ [Fetch (avatarUrl_of githubId
                                        (clock env (ticks s)))];
                ticks := S (ticks s) |})) as ->.
  { rewrite downloadAvatar_unfold. cbv zeta.
    destruct (remote env _) as [status blob|] eqn:Hr; [|done].
    destruct (ok status) eqn:Hok; [|done].
    exfalso. apply (Hdown (avatarUrl_of githubId (clock env (ticks s)))).
    rewrite Hr. by exists status, blob. }
  rewrite IH.
  - cbn [updatesChecked localStorage timers trace ticks length imap].
    f_equal. f_equal; [|lia].
    rewrite <- app_assoc. cbn [app]. rewrite Nat.add_0_r. do 2 f_equal.
    apply imap_ext. intros i id _. cbn. do 3 f_equal. lia.
  - intros id Hid. specialize (Hnone id (list_elem_of_further _ _ _ Hid)).
    unfold getMetadata in *. run_M.
    destruct (window env); cbn in *; [|done].
    by destruct (localStorage s).
Qed.

Lemma every_key_is_tried_despite_failures_witness :
  trace (refresh_loop Samples.offline_browser ["alice"; "bob"] 0
           (initial Malformed)).2
  = [ Fetch "https://github.com/alice.png?size=128&t=1700000000000";
      Fetch "https://github.com/bob.png?size=128&t=1700000000001" ].
Proof.
  rewrite (every_key_is_tried_despite_failures Samples.offline_browser
             ["alice"; "bob"] 0 (initial Malformed)).
  - reflexivity.
  - intros url (status & blob & Hr & _). discriminate Hr.
  - intros githubId _. reflexivity.
Defined.

End SessionMore.
